(** * ReactFiberReconciler and ReactDOMFiber: containers, roots and the DOM host config

    A shallow embedding of the two modules of the renderer that bind a
    DOM container to a fiber root:

    - [ReactFiberReconciler]: [createContainer], [updateContainer],
      [getPublicRootInstance], [findHostInstance];
    - [ReactDOMFiber]: the DOM host config handed to the reconciler
      ([prepareForCommit], [resetAfterCommit], [finalizeInitialChildren],
      [commitMount], the mutation methods) and the entry points [render],
      [unstable_renderSubtreeIntoContainer], [unmountComponentAtNode].

    JavaScript objects live in stores indexed by handles, module-level
    variables are fields of the store, and every function is a computation
    in a state-and-exception monad.  Calls that leave the two modules (to the
    scheduler, the update queue, the DOM) are appended to a call log. *)

From stdpp Require Import gmap strings list fin_maps.
From Stdlib Require Import ZArith.

(** ** Handles *)

Abbreviation NodeId := positive (only parsing).
Abbreviation FiberId := positive (only parsing).
Abbreviation RootId := positive (only parsing).
Abbreviation ComponentId := positive (only parsing).

(** ** JavaScript values that reach the modelled code *)

Inductive JsValue :=
| JsUndefined
| JsNull
| JsBool (b : bool)
| JsNumber (z : Z)
| JsString (s : string)
| JsObject (o : positive).

(** [!!v] *)
Definition truthy (v : JsValue) : bool :=
  match v with
  | JsUndefined | JsNull => false
  | JsBool b => b
  | JsNumber z => negb (z =? 0)%Z
  | JsString s => negb (String.eqb s EmptyString)
  | JsObject _ => true
  end.

(** A value passed where a DOM container is expected. *)
Inductive ContainerArg :=
| ArgNull
| ArgUndefined
| ArgOther (v : JsValue)        (* any other value: it has no [nodeType] *)
| ArgNode (n : NodeId).

(** [ReactNodeList]: what is rendered; [null] unmounts. *)
Inductive ReactNodeList :=
| NullChildren
| ElementNode (type : string)
| TextNode (text : string).

(** The context object a subtree is rendered under (never [null]). *)
Inductive ContextValue := ContextObject (o : positive).

(** Functions passed as completion callbacks.  The second constructor is the
    closure [() => { container._reactRootContainer = null; }] built by
    [unmountComponentAtNode]. *)
Inductive Callback :=
| UserCallback (k : positive)
| ClearRootContainer (container : NodeId).

(** The optional [callback] parameter: omitted, [null], or a function. *)
Inductive CallbackArg :=
| CallbackUndefined
| CallbackNull
| CallbackFunction (f : Callback).

(** Modelled from the spec: ReactPriorityLevel is not among the sources; the
    spec lists the levels, "totally ordered from must run now, blocking to run
    when idle; lower value = more urgent; NoWork means no update pending". *)
Inductive PriorityLevel :=
| NoWork
| SynchronousPriority
| TaskPriority
| AnimationPriority
| HighPriority
| LowPriority
| OffscreenPriority.

Definition priorityValue (p : PriorityLevel) : nat :=
  match p with
  | NoWork => 0
  | SynchronousPriority => 1
  | TaskPriority => 2
  | AnimationPriority => 3
  | HighPriority => 4
  | LowPriority => 5
  | OffscreenPriority => 6
  end.

Global Instance PriorityLevel_eq_dec : EqDecision PriorityLevel.
Proof. solve_decision. Defined.

(** Modelled from the spec: the Update record [{ payload, priorityLevel,
    callback }] appended to a root's queue. *)
Record Update := mkUpdate {
  partialState : ReactNodeList;
  callback : option Callback;
  priorityLevel : PriorityLevel;
}.

(** ** Fibers and roots *)

(** [fiber.stateNode] is [any]: nothing, an output instance created through
    the host config, a component instance, or the root itself. *)
Inductive StateNode :=
| StateNull
| HostInstance (n : NodeId)
| ComponentInstance (c : ComponentId)
| RootInstance (r : RootId).

(** Modelled from the spec: the Fiber type is imported from ReactFiber, which
    is not among the sources.  The work node has "a mutable output-instance
    handle, a back-pointer to its parent, pointers to first child / next
    sibling (forming an intrusive tree)". *)
Record Fiber := mkFiber {
  stateNode : StateNode;
  fiber_return : option FiberId;
  child : option FiberId;
  sibling : option FiberId;
}.

(** Modelled from the spec: FiberRoot is imported from ReactFiberRoot.  The
    root "owns a reference to the target container, the current tree's top
    node, an active application-level context value, a pending context
    value". *)
Record FiberRoot := mkFiberRoot {
  containerInfo : NodeId;
  current : FiberId;
  context : option ContextValue;
  pendingContext : option ContextValue;
}.

(** ** The DOM *)

Record DomNode := mkDomNode {
  nodeType : Z;
  childNodes : list NodeId;
  documentElement : option NodeId;
  nodeValue : string;
  _reactRootContainer : option RootId;
}.

Definition ELEMENT_NODE_TYPE : Z := 1.
Definition DOC_NODE_TYPE : Z := 9.
Definition DOCUMENT_FRAGMENT_NODE_TYPE : Z := 11.
Definition DOCUMENT_NODE : Z := 9.

(** What [ReactInputSelection.getSelectionInformation] hands back; opaque to
    the renderer. *)
Inductive SelectionInfo := Selection (focusedElem : option NodeId).

(** ** The scheduler *)

Module Scheduler.

(** Modelled from the spec: ReactFiberScheduler is not among the sources.
    The state is the batching-mode flag, the ambient-priority stack, the
    updates enqueued and not yet processed (in enqueue order, tagged with
    the top node of their root), and the Commit Pipeline runs started so
    far, each with the root it ran for and the updates it processed. *)
Record State := mkState {
  isBatchingUpdates : bool;
  priorityContext : list PriorityLevel;
  pending : list (FiberId * Update);
  commits : list (FiberId * list Update);
}.

Definition initial : State := mkState false [] [] [].

Definition set_isBatchingUpdates (b : bool) (s : State) : State :=
  mkState b (priorityContext s) (pending s) (commits s).


(** Modelled from the spec: "getPriorityContext() reads the top of the
    stack, defaulting to a context-sensitive priority when unset
    (Synchronous if not inside any batching call, Task-level if inside
    one)". *)
Definition getPriorityContext (s : State) : PriorityLevel :=
  match priorityContext s with
  | level :: _ => level
  | [] => if isBatchingUpdates s then TaskPriority else SynchronousPriority
  end.

(** Modelled from the spec: an Update is "appended to a root's queue". *)
Definition addTopLevelUpdate (f : FiberId) (u : Update) (s : State) : State :=
  mkState (isBatchingUpdates s) (priorityContext s)
          (pending s ++ [(f, u)]) (commits s).

(** Modelled from the spec: an update is processed by work on root [f] at
    [level] when it belongs to that root and is at least as urgent ("consumed
    by the Work Loop when it processes that root at matching-or-higher
    priority").  [NoWork] "means no update pending": an update tagged with
    it is never due. *)
Definition due (level : PriorityLevel) (f : FiberId) (fu : FiberId * Update) : bool :=
  bool_decide (fu.1 = f)
  && negb (bool_decide (priorityLevel fu.2 = NoWork))
  && bool_decide (priorityValue (priorityLevel fu.2) ≤ priorityValue level)%nat.

(** Modelled from the spec: the start of one Commit Pipeline run for root
    [f]: the due updates, in enqueue order, leave the queue and are processed
    together; a root with nothing due is not committed.  The run is recorded
    when it starts, whether or not it completes. *)
Definition commitRoot (level : PriorityLevel) (f : FiberId) (s : State)
  : list (FiberId * list Update) * State :=
  match filter (λ fu, due level f fu = true) (pending s) with
  | [] => ([], s)
  | us =>
      let c := (f, us.*2) in
      ([c], mkState (isBatchingUpdates s) (priorityContext s)
                    (filter (λ fu, due level f fu = false) (pending s))
                    (commits s ++ [c]))
  end.


(** Modelled from the spec: whether [scheduleUpdate] works on the root before
    it returns.  "Synchronous-priority work never yields, it runs to
    completion within the call that triggered it"; Task-level work is
    immediate unless a batch suppresses it; the deferred levels are handed to
    the host's animation or idle callback. *)
Definition immediate (level : PriorityLevel) (s : State) : bool :=
  match level with
  | SynchronousPriority => true
  | TaskPriority => negb (isBatchingUpdates s)
  | _ => false
  end.

(** Modelled from the spec: [scheduleUpdate(root.topNode, priority)]
    "notifies the Work Loop"; work that is immediate is done, and committed,
    before the call returns. *)
Definition scheduleUpdate (f : FiberId) (level : PriorityLevel) (s : State)
  : list (FiberId * list Update) * State :=
  if immediate level s then commitRoot level f s else ([], s).



(** Modelled from the spec: "unbatchedUpdates(fn) forces non-batched
    scheduling, overriding an outer batchedUpdates". *)
Definition unbatchedUpdates_begin (s : State) : bool * State :=
  (isBatchingUpdates s, set_isBatchingUpdates false s).

Definition unbatchedUpdates_end (previous : bool) (s : State) : State :=
  set_isBatchingUpdates previous s.



End Scheduler.

(** ** The store *)

(** The objects the two modules read and write, and their module-level
    variables: [eventsEnabled], [selectionInformation] and [warned] belong to
    ReactDOMFiber. *)
Record Store := mkStore {
  domNodes : gmap positive DomNode;
  roots : gmap positive FiberRoot;
  fibers : gmap positive Fiber;
  eventsEnabled : option bool;
  selectionInformation : option SelectionInfo;
  warned : bool;
  emitterEnabled : bool;
  selection : SelectionInfo;
}.

Definition set_domNodes (d : gmap positive DomNode) (st : Store) : Store :=
  mkStore d (roots st) (fibers st) (eventsEnabled st)
          (selectionInformation st) (warned st) (emitterEnabled st) (selection st).

Definition set_roots (r : gmap positive FiberRoot) (st : Store) : Store :=
  mkStore (domNodes st) r (fibers st) (eventsEnabled st)
          (selectionInformation st) (warned st) (emitterEnabled st) (selection st).

Definition set_fibers (f : gmap positive Fiber) (st : Store) : Store :=
  mkStore (domNodes st) (roots st) f (eventsEnabled st)
          (selectionInformation st) (warned st) (emitterEnabled st) (selection st).

Definition set_eventsEnabled (v : option bool) (st : Store) : Store :=
  mkStore (domNodes st) (roots st) (fibers st) v
          (selectionInformation st) (warned st) (emitterEnabled st) (selection st).

Definition set_selectionInformation (v : option SelectionInfo) (st : Store) : Store :=
  mkStore (domNodes st) (roots st) (fibers st) (eventsEnabled st)
          v (warned st) (emitterEnabled st) (selection st).

Definition set_warned (b : bool) (st : Store) : Store :=
  mkStore (domNodes st) (roots st) (fibers st) (eventsEnabled st)
          (selectionInformation st) b (emitterEnabled st) (selection st).

Definition set_emitterEnabled (b : bool) (st : Store) : Store :=
  mkStore (domNodes st) (roots st) (fibers st) (eventsEnabled st)
          (selectionInformation st) (warned st) b (selection st).

Definition set_selection (s : SelectionInfo) (st : Store) : Store :=
  mkStore (domNodes st) (roots st) (fibers st) (eventsEnabled st)
          (selectionInformation st) (warned st) (emitterEnabled st) s.

(** [Props] of a DOM host component, as the host config reads them. *)
Record Props := mkProps {
  autoFocus : JsValue;
  children : JsValue;
}.

(** ** Calls that leave the two modules *)

Inductive Call :=
(* ReactFiberScheduler, ReactFiberUpdateQueue, ReactFiberRoot *)
| Call_getPriorityContext (returned : PriorityLevel)
| Call_addTopLevelUpdate (fiber : FiberId) (partialState : ReactNodeList)
                         (callback : option Callback) (priorityLevel : PriorityLevel)
| Call_scheduleUpdate (fiber : FiberId) (priorityLevel : PriorityLevel)
| Call_createFiberRoot (containerInfo : NodeId) (returned : RootId)
| Call_batchedUpdates_begin
| Call_batchedUpdates_end
| Call_unbatchedUpdates_begin
| Call_unbatchedUpdates_end
(* the DOM *)
| Call_removeChild (parent child : NodeId)
| Call_appendChild (parent child : NodeId)
| Call_insertBefore (parent child beforeChild : NodeId)
| Call_set_nodeValue (node : NodeId) (text : string)
| Call_set_textContent (node : NodeId) (text : string)
| Call_focus (node : NodeId)
(* ReactDOMFiberComponent, ReactDOMComponentTree *)
| Call_setInitialProperties (domElement : NodeId) (type : string) (props : Props)
                            (rootContainerInstance : NodeId)
| Call_updateFiberProps (domElement : NodeId) (props : Props)
| Call_updateProperties (domElement : NodeId) (updatePayload : list JsValue)
                        (type : string) (oldProps newProps : Props)
(* ReactInputSelection, ReactBrowserEventEmitter *)
| Call_getSelectionInformation
| Call_restoreSelection (priorSelectionInformation : option SelectionInfo)
| Call_isEnabled (returned : bool)
| Call_setEnabled (enabled : bool)
(* warning *)
| Call_warning (condition : bool).

(** ** Computations *)

Record World := mkWorld {
  store : Store;
  sched : Scheduler.State;
  calls : list Call;
}.

Inductive Error :=
| JsError (message : string)              (* [throw new Error(message)] *)
| InvariantViolation (message : string)   (* a failed [invariant] *)
| TypeError                               (* a property read through [null] *)
| NotFoundError.                          (* the DOM's exception *)

Inductive Result (A : Type) :=
| Ok (a : A)
| Throw (e : Error).
Arguments Ok {A} a.
Arguments Throw {A} e.

(** A computation runs in a world and leaves a world behind, also when it
    throws: an exception does not undo the writes made before it. *)
Definition M (A : Type) : Type := World → Result A * World.

Definition ret {A} (a : A) : M A := λ w, (Ok a, w).

Definition bind {A B} (m : M A) (k : A → M B) : M B :=
  λ w, match m w with
       | (Ok a, w') => k a w'
       | (Throw e, w') => (Throw e, w')
       end.

Definition throw {A} (e : Error) : M A := λ w, (Throw e, w).

(** [try { m } finally { cleanup }] for a cleanup that cannot throw. *)
Definition finally {A} (m : M A) (cleanup : World → World) : M A :=
  λ w, let '(r, w') := m w in (r, cleanup w').


Declare Scope js_scope.
Delimit Scope js_scope with js.
Notation "x ← y ; z" := (bind y (λ x, z))
  (at level 20, y at level 100, z at level 200, only parsing) : js_scope.
Notation "x ;; z" := (bind x (λ _, z))
  (at level 100, z at level 200, only parsing, right associativity) : js_scope.
Local Open Scope js_scope.

Definition exec {A} (m : M A) (w : World) : World := (m w).2.
Definition result {A} (m : M A) (w : World) : Result A := (m w).1.

Definition log (c : Call) : M unit :=
  λ w, (Ok tt, mkWorld (store w) (sched w) (calls w ++ [c])).

Definition getStore : M Store := λ w, (Ok (store w), w).

Definition modifyStore (f : Store → Store) : M unit :=
  λ w, (Ok tt, mkWorld (f (store w)) (sched w) (calls w)).

(** Property reads through a handle.  A handle that is not in the store cannot
    arise in JavaScript; reading through one throws like a read through
    [null]. *)
Definition getRoot (r : RootId) : M FiberRoot :=
  st ← getStore;
  match roots st !! r with
  | Some root => ret root
  | None => throw TypeError
  end.

Definition getFiber (f : FiberId) : M Fiber :=
  st ← getStore;
  match fibers st !! f with
  | Some fiber => ret fiber
  | None => throw TypeError
  end.

Definition getNode (n : NodeId) : M DomNode :=
  st ← getStore;
  match domNodes st !! n with
  | Some node => ret node
  | None => throw TypeError
  end.

Definition set_context (c : option ContextValue) (root : FiberRoot) : FiberRoot :=
  mkFiberRoot (containerInfo root) (current root) c (pendingContext root).

Definition set_pendingContext (c : option ContextValue) (root : FiberRoot) : FiberRoot :=
  mkFiberRoot (containerInfo root) (current root) (context root) c.

Definition modifyRoot (r : RootId) (f : FiberRoot → FiberRoot) : M unit :=
  modifyStore (λ st, set_roots (alter f r (roots st)) st).

Section Renderer.

(** ** ReactFiberReconciler *)

(** [getContextForSubtree(parentComponent)], the injected context resolver:
    a function of the parent component. *)
Variable getContextForSubtree : option ComponentId → ContextValue.

(** One Commit Pipeline run, for the root whose top node is given and the
    updates it processes: what it writes to the trees, the roots and the DOM,
    and how it ends.  The work loop and the commit phase are outside the
    sources; the scheduler below decides when a run happens, this function
    is the run.  It calls the host config and the completion callbacks, and
    "any exception raised by an adapter call propagates": the run may throw,
    and the store it returns then holds what was written until then. *)
Variable commitWork : FiberId → list Update → Store → Result unit * Store.

(** Runs one after the other, up to the first that throws: the store they
    leave, and how they end. *)
Fixpoint applyCommits (cs : list (FiberId * list Update)) (st : Store) : Store :=
  match cs with
  | [] => st
  | c :: cs' =>
      match commitWork c.1 c.2 st with
      | (Ok _, st') => applyCommits cs' st'
      | (Throw _, st') => st'
      end
  end.

Fixpoint commitsResult (cs : list (FiberId * list Update)) (st : Store) : Result unit :=
  match cs with
  | [] => Ok tt
  | c :: cs' =>
      match commitWork c.1 c.2 st with
      | (Ok _, st') => commitsResult cs' st'
      | (Throw e, _) => Throw e
      end
  end.

(** A call into the scheduler: logged, then the scheduler's state moves and
    the runs it starts before returning are performed on the store; an
    exception of a run propagates out of the call. *)
Definition scheduler (c : Call)
    (op : Scheduler.State → list (FiberId * list Update) * Scheduler.State) : M unit :=
  λ w, let '(cs, s') := op (sched w) in
       (commitsResult cs (store w),
        mkWorld (applyCommits cs (store w)) s' (calls w ++ [c])).

(** The functions [ReactFiberScheduler(config)] and ReactFiberUpdateQueue
    hand to the reconciler, as calls: each is logged and moves the state of
    [Scheduler]. *)
Definition getPriorityContext : M PriorityLevel :=
  λ w, let level := Scheduler.getPriorityContext (sched w) in
       (Ok level, mkWorld (store w) (sched w) (calls w ++ [Call_getPriorityContext level])).

Definition addTopLevelUpdate (fiber : FiberId) (partialState : ReactNodeList)
    (callback : option Callback) (priorityLevel : PriorityLevel) : M unit :=
  scheduler (Call_addTopLevelUpdate fiber partialState callback priorityLevel)
    (λ s, ([], Scheduler.addTopLevelUpdate fiber
                 (mkUpdate partialState callback priorityLevel) s)).

Definition scheduleUpdate (fiber : FiberId) (priorityLevel : PriorityLevel) : M unit :=
  scheduler (Call_scheduleUpdate fiber priorityLevel)
    (Scheduler.scheduleUpdate fiber priorityLevel).

(** Modelled from the spec: work on one root at [level], and on every root
    that has updates queued, one after the other; a run that throws ends
    the work. *)
Definition commitRoot (level : PriorityLevel) (f : FiberId) : M unit :=
  λ w, let '(cs, s') := Scheduler.commitRoot level f (sched w) in
       (commitsResult cs (store w),
        mkWorld (applyCommits cs (store w)) s' (calls w)).




Definition unbatchedUpdates {A} (fn : M A) : M A :=
  λ w, let '(previousIsBatchingUpdates, s) := Scheduler.unbatchedUpdates_begin (sched w) in
       finally fn
         (λ w', mkWorld (store w')
                  (Scheduler.unbatchedUpdates_end previousIsBatchingUpdates (sched w'))
                  (calls w' ++ [Call_unbatchedUpdates_end]))
         (mkWorld (store w) s (calls w ++ [Call_unbatchedUpdates_begin])).




(** Modelled from the spec: createFiberRoot is imported from ReactFiberRoot.
    It "allocates a Root bound to containerInfo; initial current tree is
    empty": a new top node without child, and a root whose two context
    fields are [null]. *)
Definition createFiberRoot (containerInfo : NodeId) : M RootId :=
  λ w, let st := store w in
       let r := fresh (dom (roots st)) in
       let f := fresh (dom (fibers st)) in
       let uninitializedFiber := mkFiber (RootInstance r) None None None in
       let root := mkFiberRoot containerInfo f None None in
       (Ok r,
        mkWorld (set_roots (<[r := root]> (roots st))
                   (set_fibers (<[f := uninitializedFiber]> (fibers st)) st))
                (sched w)
                (calls w ++ [Call_createFiberRoot containerInfo r])).

Definition createContainer (containerInfo : NodeId) : M RootId :=
  createFiberRoot containerInfo.

(** [callback === undefined ? null : callback] *)
Definition callbackOrNull (callback : CallbackArg) : option Callback :=
  match callback with
  | CallbackUndefined => None
  | CallbackNull => None
  | CallbackFunction f => Some f
  end.

Definition updateContainer (element : ReactNodeList) (container : RootId)
    (parentComponent : option ComponentId) (callback : CallbackArg) : M unit :=
  root ← getRoot container;
  (match context root with
   | None =>
       modifyRoot container (set_context (Some (getContextForSubtree parentComponent)))
   | Some _ =>
       modifyRoot container (set_pendingContext (Some (getContextForSubtree parentComponent)))
   end);;
  priorityLevel ← getPriorityContext;
  root1 ← getRoot container;
  addTopLevelUpdate (current root1) element (callbackOrNull callback) priorityLevel;;
  root2 ← getRoot container;
  scheduleUpdate (current root2) priorityLevel.

Definition getPublicRootInstance (container : RootId) : M StateNode :=
  root ← getRoot container;
  containerFiber ← getFiber (current root);
  match child containerFiber with
  | None => ret StateNull
  | Some c =>
      childFiber ← getFiber c;
      ret (stateNode childFiber)
  end.







(** ** The DOM methods the host config calls *)

Definition set_childNodes (l : list NodeId) (n : DomNode) : DomNode :=
  mkDomNode (nodeType n) l (documentElement n) (nodeValue n) (_reactRootContainer n).

Definition set_nodeValue (s : string) (n : DomNode) : DomNode :=
  mkDomNode (nodeType n) (childNodes n) (documentElement n) s (_reactRootContainer n).

Definition set_reactRootContainer (r : option RootId) (n : DomNode) : DomNode :=
  mkDomNode (nodeType n) (childNodes n) (documentElement n) (nodeValue n) r.

Definition without (c : NodeId) (l : list NodeId) : list NodeId :=
  filter (λ x, x ≠ c) l.

(** A node has one parent: inserting it somewhere takes it out of where
    it was. *)
Definition detach (c : NodeId) (d : gmap positive DomNode) : gmap positive DomNode :=
  (λ n, set_childNodes (without c (childNodes n)) n) <$> d.

Fixpoint insertAt (c beforeChild : NodeId) (l : list NodeId) : list NodeId :=
  match l with
  | [] => [c]
  | x :: l' =>
      if bool_decide (x = beforeChild) then c :: x :: l'
      else x :: insertAt c beforeChild l'
  end.

Definition insertBeforeList (c beforeChild : NodeId) (l : list NodeId) : list NodeId :=
  if bool_decide (c = beforeChild) then l
  else insertAt c beforeChild (without c l).

Definition dom_removeChild (parent c : NodeId) : M unit :=
  log (Call_removeChild parent c);;
  node ← getNode parent;
  if bool_decide (c ∈ childNodes node) then
    modifyStore (λ st,
      set_domNodes (<[parent := set_childNodes (without c (childNodes node)) node]>
                      (domNodes st)) st)
  else throw NotFoundError.

Definition dom_appendChild (parent c : NodeId) : M unit :=
  log (Call_appendChild parent c);;
  _ ← getNode parent;
  modifyStore (λ st,
    set_domNodes (alter (λ n, set_childNodes (childNodes n ++ [c]) n) parent
                    (detach c (domNodes st))) st).

Definition dom_insertBefore (parent c beforeChild : NodeId) : M unit :=
  log (Call_insertBefore parent c beforeChild);;
  node ← getNode parent;
  if bool_decide (beforeChild ∈ childNodes node) then
    modifyStore (λ st,
      set_domNodes
        (<[parent := set_childNodes (insertBeforeList c beforeChild (childNodes node)) node]>
           (detach c (domNodes st))) st)
  else throw NotFoundError.

(** Whether the browser lets a node take the focus: a control that is
    disabled, or that is not rendered, does not. *)
Variable focusable : Store → NodeId → bool.

(** [node.focus()]: the node becomes the focused element if it can take the
    focus; otherwise the call changes nothing. *)
Definition dom_focus (node : NodeId) : M unit :=
  log (Call_focus node);;
  st ← getStore;
  if focusable st node then modifyStore (set_selection (Selection (Some node)))
  else ret tt.

(** ** Collaborators of the DOM host config *)

(** Modelled from the spec: ReactBrowserEventEmitter is outside the sources
    (the spec lists event delegation as an external collaborator).  It
    keeps one flag, read by [isEnabled] and written by [setEnabled], which
    coerces its argument to a boolean. *)
Definition isEnabled : M bool :=
  st ← getStore;
  log (Call_isEnabled (emitterEnabled st));;
  ret (emitterEnabled st).

(** [setEnabled(enabled)] for [enabled : ?boolean]. *)
Definition setEnabled (enabled : option bool) : M unit :=
  log (Call_setEnabled (default false enabled));;
  modifyStore (set_emitterEnabled (default false enabled)).

(** Modelled from the spec: ReactInputSelection is outside the sources
    (focus management is an external collaborator).
    [getSelectionInformation] snapshots the current selection and
    [restoreSelection] puts a snapshot back. *)
Definition getSelectionInformation : M SelectionInfo :=
  st ← getStore;
  log Call_getSelectionInformation;;
  ret (selection st).

Definition restoreSelection (priorSelectionInformation : option SelectionInfo) : M unit :=
  log (Call_restoreSelection priorSelectionInformation);;
  match priorSelectionInformation with
  | Some s => modifyStore (set_selection s)
  | None => ret tt
  end.

(** ** ReactDOMFiber *)

(** [ReactDOMFeatureFlags.useFiber], [__DEV__], [ReactInstanceMap.has] and
    [ReactDOMComponentTree.getInstanceFromNode]. *)
Variable useFiber : bool.
Variable DEV : bool.
Variable instanceMapHas : ComponentId → bool.
Variable getInstanceFromNode : Store → NodeId → option FiberId.

Definition isValidContainer (st : Store) (node : ContainerArg) : bool :=
  match node with
  | ArgNode n =>
      match domNodes st !! n with
      | Some d =>
          (nodeType d =? ELEMENT_NODE_TYPE)%Z
          || (nodeType d =? DOC_NODE_TYPE)%Z
          || (nodeType d =? DOCUMENT_FRAGMENT_NODE_TYPE)%Z
      | None => false
      end
  | ArgNull | ArgUndefined | ArgOther _ => false
  end.

Definition validateContainer (container : ContainerArg) : M unit :=
  st ← getStore;
  if isValidContainer st container then ret tt
  else throw (JsError "Target container is not a DOM element.").

Definition invariant (condition : bool) (message : string) : M unit :=
  if condition then ret tt else throw (InvariantViolation message).

Definition warning (condition : bool) : M unit :=
  log (Call_warning condition).

Definition getReactRootElementInContainer (container : ContainerArg) : M (option NodeId) :=
  match container with
  | ArgNode n =>
      node ← getNode n;
      if (nodeType node =? DOC_NODE_TYPE)%Z then ret (documentElement node)
      else ret (head (childNodes node))
  | ArgNull | ArgUndefined | ArgOther _ => ret None
  end.

Definition shouldAutoFocusHostComponent (type : string) (props : Props) : bool :=
  if String.eqb type "button" || String.eqb type "input"
     || String.eqb type "select" || String.eqb type "textarea"
  then truthy (autoFocus props)
  else false.

(** *** The host config passed to [ReactFiberReconciler] *)

Definition getPublicInstance (instance : NodeId) : NodeId := instance.

Definition prepareForCommit : M unit :=
  enabled ← isEnabled;
  modifyStore (set_eventsEnabled (Some enabled));;
  info ← getSelectionInformation;
  modifyStore (set_selectionInformation (Some info));;
  setEnabled (Some false).

Definition resetAfterCommit : M unit :=
  st ← getStore;
  restoreSelection (selectionInformation st);;
  modifyStore (set_selectionInformation None);;
  st' ← getStore;
  setEnabled (eventsEnabled st');;
  modifyStore (set_eventsEnabled None).

Definition appendInitialChild (parentInstance c : NodeId) : M unit :=
  dom_appendChild parentInstance c.

Definition finalizeInitialChildren (domElement : NodeId) (type : string) (props : Props)
    (rootContainerInstance : NodeId) : M bool :=
  log (Call_setInitialProperties domElement type props rootContainerInstance);;
  ret (shouldAutoFocusHostComponent type props).

Definition commitMount (domElement : NodeId) (type : string) (newProps : Props)
    (internalInstanceHandle : FiberId) : M unit :=
  dom_focus domElement.

Definition commitUpdate (domElement : NodeId) (updatePayload : list JsValue)
    (type : string) (oldProps newProps : Props) (internalInstanceHandle : FiberId) : M unit :=
  log (Call_updateFiberProps domElement newProps);;
  log (Call_updateProperties domElement updatePayload type oldProps newProps).

Definition resetTextContent (domElement : NodeId) : M unit :=
  log (Call_set_textContent domElement EmptyString);;
  modifyStore (λ st,
    set_domNodes (alter (set_childNodes []) domElement (domNodes st)) st).

Definition commitTextUpdate (textInstance : NodeId) (oldText newText : string) : M unit :=
  log (Call_set_nodeValue textInstance newText);;
  modifyStore (λ st,
    set_domNodes (alter (set_nodeValue newText) textInstance (domNodes st)) st).

Definition appendChild (parentInstance c : NodeId) : M unit :=
  dom_appendChild parentInstance c.

Definition insertBefore (parentInstance c beforeChild : NodeId) : M unit :=
  dom_insertBefore parentInstance c beforeChild.

Definition removeChild (parentInstance c : NodeId) : M unit :=
  dom_removeChild parentInstance c.

(** The mutation methods, as data, and a mutation phase: the calls a commit
    makes between [prepareForCommit] and [resetAfterCommit]. *)
Inductive HostMutation :=
| Mutation_appendChild (parentInstance c : NodeId)
| Mutation_insertBefore (parentInstance c beforeChild : NodeId)
| Mutation_removeChild (parentInstance c : NodeId)
| Mutation_commitUpdate (domElement : NodeId) (updatePayload : list JsValue)
                        (type : string) (oldProps newProps : Props)
                        (internalInstanceHandle : FiberId)
| Mutation_commitTextUpdate (textInstance : NodeId) (oldText newText : string)
| Mutation_resetTextContent (domElement : NodeId).

Definition applyMutation (m : HostMutation) : M unit :=
  match m with
  | Mutation_appendChild p c => appendChild p c
  | Mutation_insertBefore p c b => insertBefore p c b
  | Mutation_removeChild p c => removeChild p c
  | Mutation_commitUpdate e u t o n h => commitUpdate e u t o n h
  | Mutation_commitTextUpdate t o n => commitTextUpdate t o n
  | Mutation_resetTextContent e => resetTextContent e
  end.

Fixpoint mutationPhase (ms : list HostMutation) : M unit :=
  match ms with
  | [] => ret tt
  | m :: ms' => applyMutation m;; mutationPhase ms'
  end.

(** *** The entry points *)

Definition warnAboutUnstableUse : M unit :=
  st ← getStore;
  warning (warned st || useFiber);;
  modifyStore (set_warned true).

(** [while (container.lastChild) container.removeChild(container.lastChild)];
    each turn removes a child, so as many turns as there are children
    suffice. *)
Fixpoint clearContent (fuel : nat) (container : NodeId) : M unit :=
  match fuel with
  | O => ret tt
  | S fuel' =>
      node ← getNode container;
      match last (childNodes node) with
      | None => ret tt
      | Some lastChild =>
          dom_removeChild container lastChild;;
          clearContent fuel' container
      end
  end.

Definition renderSubtreeIntoContainer (parentComponent : option ComponentId)
    (children : ReactNodeList) (containerNode : ContainerArg) (callback : CallbackArg)
  : M StateNode :=
  validateContainer containerNode;;
  match containerNode with
  | ArgNode n =>
      node ← getNode n;
      container ← (if (nodeType node =? DOCUMENT_NODE)%Z
                    then match documentElement node with
                         | Some d => ret d
                         | None => throw TypeError
                         end
                    else ret n);
      containerObject ← getNode container;
      match _reactRootContainer containerObject with
      | None =>
          clearContent (length (childNodes containerObject)) container;;
          newRoot ← createContainer container;
          modifyStore (λ st,
            set_domNodes (alter (set_reactRootContainer (Some newRoot)) container
                            (domNodes st)) st);;
          unbatchedUpdates
            (updateContainer children newRoot parentComponent callback);;
          getPublicRootInstance newRoot
      | Some root =>
          updateContainer children root parentComponent callback;;
          getPublicRootInstance root
      end
  | ArgNull | ArgUndefined | ArgOther _ => throw TypeError (* not reached *)
  end.

Definition render (element : ReactNodeList) (container : ContainerArg)
    (callback : CallbackArg) : M StateNode :=
  validateContainer container;;
  renderSubtreeIntoContainer None element container callback.

Definition unstable_renderSubtreeIntoContainer (parentComponent : option ComponentId)
    (element : ReactNodeList) (containerNode : ContainerArg) (callback : CallbackArg)
  : M StateNode :=
  invariant (match parentComponent with
             | Some c => instanceMapHas c
             | None => false
             end)
            "parentComponent must be a valid React Component";;
  renderSubtreeIntoContainer parentComponent element containerNode callback.

(** Returns [undefined] ([None]) when the container holds no root. *)
Definition unmountComponentAtNode (container : ContainerArg) : M (option StateNode) :=
  st ← getStore;
  invariant (isValidContainer st container)
            "unmountComponentAtNode(...): Target container is not a DOM element.";;
  warnAboutUnstableUse;;
  match container with
  | ArgNode n =>
      node ← getNode n;
      match _reactRootContainer node with
      | Some _ =>
          (if DEV then
             rootEl ← getReactRootElementInContainer container;
             st' ← getStore;
             warning (negb (match rootEl with
                            | Some el => negb (bool_decide (is_Some (getInstanceFromNode st' el)))
                            | None => false
                            end))
           else ret tt);;
          instance ← unbatchedUpdates
                       (renderSubtreeIntoContainer None NullChildren container
                          (CallbackFunction (ClearRootContainer n)));
          ret (Some instance)
      | None => ret None
      end
  | ArgNull | ArgUndefined | ArgOther _ => throw TypeError (* not reached *)
  end.

(** ** Auxiliary definitions for the statements *)

(** The root after the context step of [updateContainer]. *)
Definition resolveContext (parentComponent : option ComponentId) (R : FiberRoot) : FiberRoot :=
  match context R with
  | None => set_context (Some (getContextForSubtree parentComponent)) R
  | Some _ => set_pendingContext (Some (getContextForSubtree parentComponent)) R
  end.




(** The node type a container argument shows to [isValidContainer]:
    [None] for [null], [undefined] and values that are not DOM nodes. *)
Definition containerNodeType (st : Store) (c : ContainerArg) : option Z :=
  match c with
  | ArgNode n => nodeType <$> domNodes st !! n
  | ArgNull | ArgUndefined | ArgOther _ => None
  end.

(** The children the clearing loop removes, in the order it removes them. *)
Fixpoint removalOrder (fuel : nat) (l : list NodeId) : list NodeId :=
  match fuel with
  | O => []
  | S fuel' =>
      match last l with
      | None => []
      | Some x => x :: removalOrder fuel' (without x l)
      end
  end.

(** The node [renderSubtreeIntoContainer] renders into: the document
    element of a document, the node itself otherwise. *)
Definition renderTarget (n : NodeId) (node : DomNode) : option NodeId :=
  if (nodeType node =? DOCUMENT_NODE)%Z then documentElement node else Some n.

(** What the work done during a render left of a container node: between the
    store the render handed to the scheduler and the store the call
    returned, the node kept its type, its document element and its root
    handle. *)
Definition containerKept (m : NodeId) (handed returned : Store) : Prop :=
  ∀ N, domNodes handed !! m = Some N →
    ∃ N', domNodes returned !! m = Some N'
          ∧ nodeType N' = nodeType N
          ∧ documentElement N' = documentElement N
          ∧ _reactRootContainer N' = _reactRootContainer N.

(** What a mutation method leaves alone: the event emitter's flag and the
    two module-level variables of the commit bracket. *)
Definition bracketState (w : World) : bool * option bool * option SelectionInfo :=
  (emitterEnabled (store w), eventsEnabled (store w), selectionInformation (store w)).










(** The callback an update carries for a [callback] argument: the function
    if one was given, [null] if the argument was [null] or left out. *)
Definition carried (callback : CallbackArg) : option Callback :=
  match callback with
  | CallbackFunction k => Some k
  | CallbackNull | CallbackUndefined => None
  end.









(** The first child of the top node of a root's current tree. *)
Definition topLevelChild (st : Store) (r : RootId) : option FiberId :=
  match roots st !! r with
  | Some R =>
      match fibers st !! current R with
      | Some F => child F
      | None => None
      end
  | None => None
  end.

(** ** Example stores *)

Definition anElement (kids : list NodeId) (root : option RootId) : DomNode :=
  mkDomNode 1 kids None EmptyString root.

Definition aDocument (element : NodeId) : DomNode :=
  mkDomNode 9 [element] (Some element) EmptyString None.

Definition aText (text : string) : DomNode :=
  mkDomNode 3 [] None text None.

(** A page: node 10 is the document, node 1 its element with two children
    2 and 3, node 4 an empty [div], node 5 a text node. *)
Definition pageNodes : gmap positive DomNode :=
  {[ 10%positive := aDocument 1;
     1%positive := anElement [2%positive; 3%positive] None;
     2%positive := anElement [] None;
     3%positive := anElement [] None;
     4%positive := anElement [] None;
     5%positive := aText "hello" ]}.

Definition pageStore : Store :=
  mkStore pageNodes ∅ ∅ None None false true (Selection None).

Definition pageWorld : World := mkWorld pageStore Scheduler.initial [].

(** The same page after a class component rendering [<p><span/>text</p>]
    was mounted into node 4: root 1 with top fiber 1; fiber 2 is the
    component, fiber 3 a functional component below it, fiber 4 the [p]
    host fiber with the host children 5 and 6. *)
Definition mountedNodes : gmap positive DomNode :=
  <[ 4%positive := anElement [6%positive] (Some 1%positive) ]>
    (<[ 6%positive := anElement [7%positive; 8%positive] None ]>
       (<[ 7%positive := anElement [] None ]>
          (<[ 8%positive := aText "text" ]> pageNodes))).

Definition mountedTopFiber : Fiber :=
  mkFiber (RootInstance 1) None (Some 2%positive) None.

Definition mountedComponentFiber : Fiber :=
  mkFiber (ComponentInstance 1) (Some 1%positive) (Some 3%positive) None.

Definition mountedFibers : gmap positive Fiber :=
  {[ 1%positive := mountedTopFiber;
     2%positive := mountedComponentFiber;
     3%positive := mkFiber StateNull (Some 2%positive) (Some 4%positive) None;
     4%positive := mkFiber (HostInstance 6) (Some 3%positive) (Some 5%positive) None;
     5%positive := mkFiber (HostInstance 7) (Some 4%positive) None (Some 6%positive);
     6%positive := mkFiber (HostInstance 8) (Some 4%positive) None None ]}.

Definition mountedRoot : FiberRoot :=
  mkFiberRoot 4 1 (Some (ContextObject 1)) None.

Definition mountedStore : Store :=
  mkStore mountedNodes {[ 1%positive := mountedRoot ]} mountedFibers
          None None true true (Selection None).

Definition mountedWorld : World := mkWorld mountedStore Scheduler.initial [].


(** A root created and not yet rendered into, inside a batch. *)
Definition freshRoot : FiberRoot := mkFiberRoot 4 1 None None.

Definition batchingWorld : World :=
  mkWorld (mkStore pageNodes {[ 1%positive := freshRoot ]}
                   {[ 1%positive := mkFiber (RootInstance 1) None None None ]}
                   None None true true (Selection None))
          (Scheduler.mkState true [] [] [])
          [].

(** A root whose top-level child is a functional component: fiber 2 keeps
    no instance, the [div] it renders is fiber 3. *)
Definition functionalFibers : gmap positive Fiber :=
  {[ 1%positive := mkFiber (RootInstance 1) None (Some 2%positive) None;
     2%positive := mkFiber StateNull (Some 1%positive) (Some 3%positive) None;
     3%positive := mkFiber (HostInstance 6) (Some 2%positive) None None ]}.

Definition functionalWorld : World :=
  mkWorld (mkStore mountedNodes {[ 1%positive := mountedRoot ]} functionalFibers
                   None None true true (Selection None))
          Scheduler.initial [].

(** A context resolver. *)
Definition exampleContextFor (parentComponent : option ComponentId) : ContextValue :=
  ContextObject (default 1%positive parentComponent).

(** Modelled from the spec: what a commit does to the context fields of the
    root it runs for.  The root holds "an active application-level context
    value" and "a pending (not-yet-applied) context value", and a call
    "leaves root.context unchanged until that update commits": the commit
    applies the pending context. *)
Definition promotePendingContext (f : FiberId) (R : FiberRoot) : FiberRoot :=
  if bool_decide (current R = f) then
    match pendingContext R with
    | Some c => mkFiberRoot (containerInfo R) (current R) (Some c) None
    | None => R
    end
  else R.

(** The completion callbacks of the updates a run processed, in order. *)
Definition completionCallbacks (us : list Update) : list Callback :=
  omap callback us.

(** The one callback the renderer itself passes,
    [() => { container._reactRootContainer = null; }]; the callbacks of
    the user are taken to do nothing here. *)
Definition runCallback (st : Store) (k : Callback) : Store :=
  match k with
  | ClearRootContainer n =>
      set_domNodes (alter (set_reactRootContainer None) n (domNodes st)) st
  | UserCallback _ => st
  end.

(** A commit for the examples: it applies the pending context of its root
    and then invokes the completion callbacks; it does not throw. *)
Definition exampleCommitWork (f : FiberId) (us : list Update) (st : Store)
  : Result unit * Store :=
  (Ok tt,
   foldl runCallback (set_roots (promotePendingContext f <$> roots st) st)
         (completionCallbacks us)).

(** A commit that throws before it has written anything, as every run does
    whose first adapter call throws. *)
Definition failingCommitWork (f : FiberId) (us : list Update) (st : Store)
  : Result unit * Store :=
  (Throw TypeError, st).










(** The page with a detached document fragment, node 11, and a document,
    node 12, that has no document element. *)
Definition fragmentWorld : World :=
  mkWorld (mkStore (<[ 11%positive := mkDomNode 11 [] None EmptyString None ]>
                      (<[ 12%positive := mkDomNode 9 [] None EmptyString None ]> pageNodes))
                   ∅ ∅ None None false true (Selection None))
          Scheduler.initial [].

(** ** Further definitions: the rest of the host config and of the entry points *)

(** [n] runs of a computation, one after the other. *)
Fixpoint times (n : nat) (m : M unit) : M unit :=
  match n with
  | O => ret tt
  | S n' => m;; times n' m
  end.

(** The store [renderSubtreeIntoContainer] has built on a first render, when
    [updateContainer] hands over to the scheduler: the target [t] (which was
    [T]) has lost its children and carries the new root, the root is bound
    to [t] and has its context resolved. *)
Definition firstRenderStore (parentComponent : option ComponentId)
    (t : NodeId) (T : DomNode) (st : Store) : Store :=
  let newRoot := fresh (dom (roots st)) in
  let f := fresh (dom (fibers st)) in
  mkStore (<[t := set_reactRootContainer (Some newRoot) (set_childNodes [] T)]> (domNodes st))
          (<[newRoot := mkFiberRoot t f (Some (getContextForSubtree parentComponent)) None]>
             (roots st))
          (<[f := mkFiber (RootInstance newRoot) None None None]> (fibers st))
          (eventsEnabled st) (selectionInformation st) (warned st)
          (emitterEnabled st) (selection st).

(** The condition of the development-only warning of
    [unmountComponentAtNode]: [!(rootEl && !getInstanceFromNode(rootEl))]. *)
Definition renderedByThisReact (st : Store) (rootEl : option NodeId) : bool :=
  negb (match rootEl with
        | Some el => negb (bool_decide (is_Some (getInstanceFromNode st el)))
        | None => false
        end).

(** *** Host contexts *)

(** [type HostContext = { namespace : string, ancestorInfo : mixed }] *)
Record HostContext := mkHostContext {
  namespace : string;
  ancestorInfo : JsValue;
}.

(** What the two host-context methods read outside the store.  Attributes of
    DOM nodes: [namespaceURI] (a string or [null]), [tagName] (undefined on
    nodes that are not elements) and [ownerDocument] ([null] on a document).
    Functions of their arguments: [String.prototype.toLowerCase],
    [ReactDOMFiberComponent.getChildNamespace] and
    [validateDOMNesting.updatedAncestorInfo]. *)
Record HostEnvironment := mkHostEnvironment {
  namespaceURI : NodeId → option string;
  tagName : NodeId → option string;
  ownerDocument : NodeId → option NodeId;
  toLowerCase : string → string;
  getChildNamespace : option string → option string → string;
  updatedAncestorInfo : JsValue → string → JsValue → JsValue;
}.

(** [if (__DEV__) { var { updatedAncestorInfo } = validateDOMNesting; }]:
    the variable is declared for the whole module and assigned only in
    development; calling it while it is [undefined] throws a [TypeError]. *)
Definition updatedAncestorInfo_binding (env : HostEnvironment)
  : option (JsValue → string → JsValue → JsValue) :=
  if DEV then Some (updatedAncestorInfo env) else None.

Definition call_updatedAncestorInfo (env : HostEnvironment)
    (oldInfo : JsValue) (tag : string) (instance : JsValue) : M JsValue :=
  match updatedAncestorInfo_binding env with
  | Some f => ret (f oldInfo tag instance)
  | None => throw TypeError
  end.

(** [s || null] for a string or [null]. *)
Definition orNull (s : option string) : option string :=
  match s with
  | Some x => if String.eqb x EmptyString then None else Some x
  | None => None
  end.

(** The arguments of [updatedAncestorInfo] are evaluated before the call:
    [rootContainerInstance.ownerDocument.documentElement] and, off the
    document element, [rootContainerInstance.tagName.toLowerCase()]. *)
Definition getRootHostContext (env : HostEnvironment) (rootContainerInstance : NodeId)
  : M HostContext :=
  let ns := getChildNamespace env (orNull (namespaceURI env rootContainerInstance))
                              (tagName env rootContainerInstance) in
  doc ← match ownerDocument env rootContainerInstance with
        | Some d => getNode d
        | None => throw TypeError
        end;
  tag ← (if bool_decide (documentElement doc = Some rootContainerInstance)
         then ret "#document"
         else match tagName env rootContainerInstance with
              | Some t => ret (toLowerCase env t)
              | None => throw TypeError
              end);
  info ← call_updatedAncestorInfo env JsNull tag JsNull;
  ret (mkHostContext ns info).

Definition getChildHostContext (env : HostEnvironment)
    (parentHostContext : HostContext) (type : string) : M HostContext :=
  let ns := getChildNamespace env (Some (namespace parentHostContext)) (Some type) in
  info ← call_updatedAncestorInfo env (ancestorInfo parentHostContext) type JsNull;
  ret (mkHostContext ns info).

(** A host environment for the example stores: node 10 is the document of
    every other node, and the fragment, node 11, has no tag name. *)
Definition exampleEnvironment : HostEnvironment :=
  mkHostEnvironment
    (λ _, Some "http://www.w3.org/1999/xhtml")
    (λ n, if bool_decide (n = 11%positive) then None else Some "DIV")
    (λ n, if bool_decide (n = 10%positive) then None else Some 10%positive)
    (λ _, "div")
    (λ _ _, "http://www.w3.org/1999/xhtml")
    (λ _ tag _, JsString tag).

(** * Properties *)

(** ** Running computations *)

Lemma exec_bind {A B} (m : M A) (k : A → M B) w :
  (bind m k) w =
  match m w with
  | (Ok a, w') => k a w'
  | (Throw e, w') => (Throw e, w')
  end.
Proof. reflexivity. Qed.

Lemma bind_ok {A B} (m : M A) (k : A → M B) w a w' :
  m w = (Ok a, w') → bind m k w = k a w'.
Proof. intros H. unfold bind. by rewrite H. Qed.

(** One step of a run: the first computation of a [bind] returned. *)
Tactic Notation "step" open_constr(H) := rewrite (bind_ok _ _ _ _ _ H).

Lemma bind_throw {A B} (m : M A) (k : A → M B) w e w' :
  m w = (Throw e, w') → bind m k w = (Throw e, w').
Proof. intros H. unfold bind. by rewrite H. Qed.

Lemma getRoot_Some r R w :
  roots (store w) !! r = Some R → getRoot r w = (Ok R, w).
Proof. intros H. unfold getRoot, bind, getStore. simpl. by rewrite H. Qed.

Lemma getRoot_None r w :
  roots (store w) !! r = None → getRoot r w = (Throw TypeError, w).
Proof. intros H. unfold getRoot, bind, getStore. simpl. by rewrite H. Qed.

Lemma modifyRoot_run r f w :
  modifyRoot r f w =
  (Ok tt, mkWorld (set_roots (alter f r (roots (store w))) (store w)) (sched w) (calls w)).
Proof. reflexivity. Qed.

Lemma updateContainer_run element r parentComponent callback w R :
  roots (store w) !! r = Some R →
  let level := Scheduler.getPriorityContext (sched w) in
  let f := current R in
  let u := mkUpdate element (callbackOrNull callback) level in
  let queued := Scheduler.addTopLevelUpdate f u (sched w) in
  let scheduled := Scheduler.scheduleUpdate f level queued in
  let st1 := set_roots (<[r := resolveContext parentComponent R]> (roots (store w))) (store w) in
  updateContainer element r parentComponent callback w =
  (commitsResult scheduled.1 st1,
   mkWorld (applyCommits scheduled.1 st1) scheduled.2
           (calls w ++ [Call_getPriorityContext level;
                        Call_addTopLevelUpdate f element (callbackOrNull callback) level;
                        Call_scheduleUpdate f level])).
Proof.
  intros HR level f u queued scheduled st1.
  assert (Hst1 : ∀ g, set_roots (alter g r (roots (store w))) (store w)
                      = set_roots (<[r := g R]> (roots (store w))) (store w)).
  { intros g. f_equal. apply map_eq. intros i.
    destruct (decide (r = i)) as [->|Hne].
    - by rewrite lookup_alter_eq, lookup_insert_eq, HR.
    - by rewrite lookup_alter_ne, lookup_insert_ne. }
  unfold updateContainer. rewrite exec_bind, (getRoot_Some _ _ _ HR).
  assert (Hstep : ((match context R with
           | None => modifyRoot r (set_context (Some (getContextForSubtree parentComponent)))
           | Some _ => modifyRoot r (set_pendingContext (Some (getContextForSubtree parentComponent)))
           end) w) = (Ok tt, mkWorld st1 (sched w) (calls w))).
  { unfold st1, resolveContext. destruct (context R); rewrite modifyRoot_run, Hst1; reflexivity. }
  rewrite exec_bind, Hstep.
  assert (Hcur : roots st1 !! r = Some (resolveContext parentComponent R)).
  { unfold st1. simpl. apply lookup_insert_eq. }
  assert (Hf : current (resolveContext parentComponent R) = f).
  { unfold resolveContext. by destruct (context R). }
  rewrite exec_bind. unfold getPriorityContext at 1. cbn [sched store calls].
  rewrite exec_bind, (getRoot_Some _ (resolveContext parentComponent R)) by exact Hcur.
  rewrite exec_bind. unfold addTopLevelUpdate, scheduler at 1.
  cbn [sched store calls applyCommits commitsResult].
  rewrite exec_bind, (getRoot_Some _ (resolveContext parentComponent R)) by exact Hcur.
  unfold scheduleUpdate, scheduler. cbn [sched store calls].
  rewrite Hf. fold level. fold u. fold queued. fold scheduled.
  destruct scheduled as [cs s']. cbn [fst snd].
  rewrite <- !app_assoc. reflexivity.
Qed.

Lemma callbackOrNull_carried callback : callbackOrNull callback = carried callback.
Proof. by destruct callback. Qed.

Lemma scheduleUpdate_deferred f level s :
  Scheduler.immediate level s = false →
  Scheduler.scheduleUpdate f level s = ([], s).
Proof. intros H. unfold Scheduler.scheduleUpdate. by rewrite H. Qed.

Lemma immediate_addTopLevelUpdate level f u s :
  Scheduler.immediate level (Scheduler.addTopLevelUpdate f u s)
  = Scheduler.immediate level s.
Proof. by destruct level. Qed.

(** ** [updateContainer] *)

(** C2: every call to [updateContainer] reads the ambient priority once
    through [getPriorityContext], enqueues exactly one update on the root's
    top fiber, carrying the element, the callback (the function given, or
    [null] when the argument is [null] or left out) and that priority, and
    then calls [scheduleUpdate] on the same fiber with the same priority, in
    that order; these are all the calls it makes.  It returns normally
    unless a run that [scheduleUpdate] performs before returning throws; the
    exception of such a run propagates, after the three calls. *)
Theorem updateContainer_enqueues_then_schedules
    element r parentComponent callback w R :
  roots (store w) !! r = Some R →
  let level := Scheduler.getPriorityContext (sched w) in
  let f := current R in
  let function := match callback with
                  | CallbackFunction k => Some k
                  | CallbackNull | CallbackUndefined => None
                  end in
  let queued := Scheduler.addTopLevelUpdate f (mkUpdate element function level) (sched w) in
  let runs := (Scheduler.scheduleUpdate f level queued).1 in
  let handed :=
    set_roots (<[r := resolveContext parentComponent R]> (roots (store w))) (store w) in
  let w' := exec (updateContainer element r parentComponent callback) w in
  calls w' = calls w ++ [Call_getPriorityContext level;
                         Call_addTopLevelUpdate f element function level;
                         Call_scheduleUpdate f level]
  ∧ Scheduler.pending queued
    = Scheduler.pending (sched w) ++ [(f, mkUpdate element function level)]
  ∧ sched w' = (Scheduler.scheduleUpdate f level queued).2
  ∧ result (updateContainer element r parentComponent callback) w
    = commitsResult runs handed
  ∧ (Scheduler.immediate level (sched w) = false →
     result (updateContainer element r parentComponent callback) w = Ok tt).
Proof.
  intros HR level f function queued runs handed w'. unfold w', exec, result.
  rewrite (updateContainer_run _ _ _ _ _ _ HR). cbn [fst snd calls sched].
  assert (Hfun : callbackOrNull callback = function) by (by destruct callback).
  rewrite Hfun. fold level f queued runs handed.
  repeat split.
  intros Him. unfold runs, queued.
  rewrite scheduleUpdate_deferred by (by rewrite immediate_addTopLevelUpdate).
  reflexivity.
Qed.




(** ** The entry points of ReactDOMFiber *)

Lemma getNode_Some n node w :
  domNodes (store w) !! n = Some node → getNode n w = (Ok node, w).
Proof. intros H. unfold getNode, bind, getStore. simpl. by rewrite H. Qed.

Lemma isValidContainer_nodeType st c :
  isValidContainer st c = true ↔
  ∃ t, containerNodeType st c = Some t ∧ (t = 1 ∨ t = 9 ∨ t = 11)%Z.
Proof.
  unfold isValidContainer, containerNodeType,
    ELEMENT_NODE_TYPE, DOC_NODE_TYPE, DOCUMENT_FRAGMENT_NODE_TYPE.
  destruct c as [| | v|n]; try (split; [done | by intros (t & ? & _)]).
  destruct (domNodes st !! n) as [d|]; cbn; [|split; [done | by intros (t & ? & _)]].
  rewrite !orb_true_iff, !Z.eqb_eq. split.
  - intros [[H|H]|H]; exists (nodeType d); (split; [done|]);
      [by left | by right; left | by right; right].
  - intros (t & [= <-] & [H|[H|H]]); [by left; left | by left; right | by right].
Qed.

Lemma invalid_container st c :
  (∀ t, containerNodeType st c = Some t → (t ≠ 1 ∧ t ≠ 9 ∧ t ≠ 11)%Z) →
  isValidContainer st c = false.
Proof.
  intros H. destruct (isValidContainer st c) eqn:E; [|done].
  apply isValidContainer_nodeType in E as (t & Ht & Hcases).
  specialize (H t Ht). lia.
Qed.

Lemma validateContainer_invalid c w :
  isValidContainer (store w) c = false →
  validateContainer c w = (Throw (JsError "Target container is not a DOM element."), w).
Proof. intros H. unfold validateContainer, bind, getStore. simpl. by rewrite H. Qed.

Lemma validateContainer_valid c w :
  isValidContainer (store w) c = true → validateContainer c w = (Ok tt, w).
Proof. intros H. unfold validateContainer, bind, getStore. simpl. by rewrite H. Qed.

(** C4: for a container argument that is [null], or whose [nodeType] is
    none of 1 (element), 9 (document) and 11 (document fragment), the entry
    points [render], [renderSubtreeIntoContainer] (also through
    [unstable_renderSubtreeIntoContainer]) and [unmountComponentAtNode]
    throw and leave the world as it was: no root is allocated,
    [createContainer] is not reached and no call is made. *)
Theorem invalid_container_throws_before_any_root
    w container element parentComponent callback :
  (∀ t, containerNodeType (store w) container = Some t → (t ≠ 1 ∧ t ≠ 9 ∧ t ≠ 11)%Z) →
  render element container callback w
    = (Throw (JsError "Target container is not a DOM element."), w)
  ∧ renderSubtreeIntoContainer parentComponent element container callback w
    = (Throw (JsError "Target container is not a DOM element."), w)
  ∧ (∃ e, unstable_renderSubtreeIntoContainer parentComponent element container callback w
          = (Throw e, w))
  ∧ unmountComponentAtNode container w
    = (Throw (InvariantViolation
                "unmountComponentAtNode(...): Target container is not a DOM element."), w).
Proof.
  intros H. apply invalid_container in H.
  assert (Hsub : ∀ p, renderSubtreeIntoContainer p element container callback w
                 = (Throw (JsError "Target container is not a DOM element."), w)).
  { intros p. unfold renderSubtreeIntoContainer.
    by rewrite (bind_throw _ _ _ _ _ (validateContainer_invalid _ _ H)). }
  repeat split.
  - unfold render.
    by rewrite (bind_throw _ _ _ _ _ (validateContainer_invalid _ _ H)).
  - apply Hsub.
  - unfold unstable_renderSubtreeIntoContainer, invariant, bind.
    destruct (match parentComponent with Some c => instanceMapHas c | None => false end).
    + unfold ret. rewrite Hsub. eauto.
    + unfold throw. eauto.
  - unfold unmountComponentAtNode, invariant, bind, getStore. rewrite H. reflexivity.
Qed.

(** C7: [unmountComponentAtNode] on a valid container that carries no root
    returns without a value; it enqueues no update (the scheduler is as it
    was), calls no DOM mutation method (the only call is the warning of
    [warnAboutUnstableUse]) and leaves the DOM, the roots and the fibers as
    they were. *)
Theorem unmountComponentAtNode_without_root w n node :
  domNodes (store w) !! n = Some node →
  isValidContainer (store w) (ArgNode n) = true →
  _reactRootContainer node = None →
  let w' := exec (unmountComponentAtNode (ArgNode n)) w in
  result (unmountComponentAtNode (ArgNode n)) w = Ok None
  ∧ sched w' = sched w
  ∧ calls w' = calls w ++ [Call_warning (warned (store w) || useFiber)]
  ∧ domNodes (store w') = domNodes (store w)
  ∧ roots (store w') = roots (store w)
  ∧ fibers (store w') = fibers (store w).
Proof.
  intros Hn Hvalid Hroot w'.
  assert (Hrun : unmountComponentAtNode (ArgNode n) w =
    (Ok None, mkWorld (set_warned true (store w)) (sched w)
                      (calls w ++ [Call_warning (warned (store w) || useFiber)]))).
  { unfold unmountComponentAtNode.
    erewrite bind_ok by reflexivity. rewrite Hvalid.
    erewrite bind_ok by reflexivity.
    erewrite bind_ok by reflexivity.
    erewrite bind_ok by (apply getNode_Some; exact Hn).
    rewrite Hroot. reflexivity. }
  unfold w', exec, result. rewrite Hrun. done.
Qed.

(** *** The clearing loop of the first render *)

Lemma without_length_lt x (l : list positive) :
  x ∈ l → length (without x l) < length l.
Proof.
  intros Hx. unfold without. induction l as [|y l IH]; [by apply elem_of_nil in Hx|].
  rewrite filter_cons. destruct (decide (y ≠ x)) as [Hne|Heq].
  - cbn. apply elem_of_cons in Hx as [->|Hx]; [done|]. specialize (IH Hx). lia.
  - cbn. pose proof (length_filter (λ z, z ≠ x) l). lia.
Qed.

Lemma without_not_elem_of x (l : list positive) :
  x ∉ l → without x l = l.
Proof.
  unfold without. induction l as [|y l IH]; intros Hx; [done|].
  apply not_elem_of_cons in Hx as [Hne Hx].
  rewrite filter_cons_True by done. by rewrite IH.
Qed.

Lemma last_elem_of (l : list positive) x : last l = Some x → x ∈ l.
Proof.
  intros H. apply last_Some in H as [l' ->]. apply elem_of_app. right. by left.
Qed.

(** Every child is removed, and only children are. *)
Lemma removalOrder_covers fuel : ∀ l : list positive,
  length l ≤ fuel → ∀ c, c ∈ removalOrder fuel l ↔ c ∈ l.
Proof.
  induction fuel as [|fuel IH]; intros l Hlen c.
  - destruct l; [done | cbn in Hlen; lia].
  - cbn [removalOrder]. destruct (last l) as [x|] eqn:Hlast.
    + pose proof (last_elem_of _ _ Hlast) as Hx.
      pose proof (without_length_lt _ _ Hx) as Hlt.
      rewrite elem_of_cons, IH by lia. unfold without.
      rewrite list_elem_of_filter. split.
      * intros [->|[_ ?]]; done.
      * intros Hc. destruct (decide (c = x)); [by left | by right].
    + apply last_None in Hlast. by subst l.
Qed.

(** On a list without repetitions the children go last to first. *)
Lemma removalOrder_reverse (l : list positive) :
  NoDup l → removalOrder (length l) l = reverse l.
Proof.
  induction l as [|x l IH] using rev_ind; intros Hnd; [done|].
  rewrite length_app, Nat.add_comm. cbn [length Nat.add removalOrder].
  rewrite last_snoc, reverse_snoc.
  apply NoDup_app in Hnd as (Hl & Hdisj & _).
  assert (Hw : without x (l ++ [x]) = l).
  { unfold without. rewrite filter_app, filter_cons, filter_nil.
    destruct (decide (x ≠ x)) as [?|_]; [done|]. rewrite app_nil_r.
    apply without_not_elem_of. intros Hx. apply (Hdisj x Hx). by left. }
  by rewrite Hw, IH.
Qed.

Lemma set_childNodes_same T : set_childNodes (childNodes T) T = T.
Proof. by destruct T. Qed.

Lemma set_domNodes_same st : set_domNodes (domNodes st) st = st.
Proof. by destruct st. Qed.

Lemma clearContent_run fuel : ∀ w t T,
  domNodes (store w) !! t = Some T →
  length (childNodes T) ≤ fuel →
  clearContent fuel t w =
  (Ok tt,
   mkWorld (set_domNodes (<[t := set_childNodes [] T]> (domNodes (store w))) (store w))
           (sched w)
           (calls w ++ (Call_removeChild t <$> removalOrder fuel (childNodes T)))).
Proof.
  assert (Hnil : ∀ w t T, domNodes (store w) !! t = Some T → childNodes T = [] →
            w = mkWorld (set_domNodes (<[t := set_childNodes [] T]> (domNodes (store w)))
                                      (store w))
                        (sched w) (calls w ++ [])).
  { intros w t T Ht Hl. rewrite <- Hl, set_childNodes_same, insert_id by done.
    rewrite set_domNodes_same, app_nil_r. by destruct w. }
  induction fuel as [|fuel IH]; intros w t T Ht Hlen.
  - assert (Hl : childNodes T = []) by (destruct (childNodes T); [done | cbn in Hlen; lia]).
    cbn [clearContent removalOrder fmap list_fmap]. unfold ret. f_equal.
    by apply Hnil.
  - cbn [clearContent removalOrder].
    step (getNode_Some _ _ _ Ht).
    destruct (last (childNodes T)) as [x|] eqn:Hlast.
    + pose proof (last_elem_of _ _ Hlast) as Hx.
      pose proof (without_length_lt _ _ Hx) as Hlt.
      assert (Hrm : dom_removeChild t x w =
        (Ok tt,
         mkWorld (set_domNodes (<[t := set_childNodes (without x (childNodes T)) T]>
                                  (domNodes (store w))) (store w))
                 (sched w) (calls w ++ [Call_removeChild t x]))).
      { unfold dom_removeChild.
        erewrite bind_ok by reflexivity.
        erewrite bind_ok by (apply getNode_Some; exact Ht).
        rewrite bool_decide_eq_true_2 by done. reflexivity. }
      step Hrm.
      rewrite (IH _ t (set_childNodes (without x (childNodes T)) T)).
      * cbn [store sched calls domNodes set_domNodes set_childNodes childNodes
               nodeType documentElement nodeValue _reactRootContainer].
        rewrite insert_insert_eq, fmap_cons, <- app_assoc. reflexivity.
      * cbn [store domNodes set_domNodes]. apply lookup_insert_eq.
      * cbn [childNodes set_childNodes]. lia.
    + apply last_None in Hlast. unfold ret. f_equal.
      cbn [fmap list_fmap]. by apply Hnil.
Qed.

Lemma getPublicRootInstance_calls r w :
  calls (exec (getPublicRootInstance r) w) = calls w.
Proof.
  unfold exec, getPublicRootInstance, getRoot, getFiber, bind, getStore, ret, throw.
  cbn [fst snd].
  destruct (roots (store w) !! r) as [R|]; [|done].
  destruct (fibers (store w) !! current R) as [F|]; [|done].
  destruct (child F) as [c|]; [|done].
  by destruct (fibers (store w) !! c).
Qed.

Lemma renderTarget_run n node t w :
  renderTarget n node = Some t →
  (if (nodeType node =? DOCUMENT_NODE)%Z
   then match documentElement node with
        | Some d => ret d
        | None => throw TypeError
        end
   else ret n) w = (Ok t, w).
Proof.
  unfold renderTarget. destruct (nodeType node =? DOCUMENT_NODE)%Z.
  - by intros ->.
  - by intros [= ->].
Qed.

Lemma unbatchedUpdates_run {A} (fn : M A) w :
  unbatchedUpdates fn w =
  let inner := fn (mkWorld (store w)
                           (Scheduler.set_isBatchingUpdates false (sched w))
                           (calls w ++ [Call_unbatchedUpdates_begin])) in
  (inner.1,
   mkWorld (store inner.2)
           (Scheduler.set_isBatchingUpdates (Scheduler.isBatchingUpdates (sched w))
                                            (sched inner.2))
           (calls inner.2 ++ [Call_unbatchedUpdates_end])).
Proof.
  unfold unbatchedUpdates, finally, Scheduler.unbatchedUpdates_begin,
    Scheduler.unbatchedUpdates_end. cbn.
  by destruct (fn _).
Qed.

Lemma getPublicRootInstance_world r w : (getPublicRootInstance r w).2 = w.
Proof.
  unfold getPublicRootInstance, getRoot, getFiber, bind, getStore, ret, throw.
  cbn [fst snd].
  destruct (roots (store w) !! r) as [R|]; [|done].
  destruct (fibers (store w) !! current R) as [F|]; [|done].
  destruct (child F) as [c|]; [|done].
  by destruct (fibers (store w) !! c).
Qed.

(** Whatever [m] returns or throws, reading the public root instance after
    it leaves the world [m] left. *)
Lemma exec_then_getPublicRootInstance {A} (m : M A) r w :
  exec (m;; getPublicRootInstance r) w = exec m w.
Proof.
  unfold exec, bind. destruct (m w) as [[a|e] w1]; [|done].
  apply getPublicRootInstance_world.
Qed.

(** The world a first render leaves. *)
Lemma renderSubtreeIntoContainer_first_run
    parentComponent children n callback w node t T :
  domNodes (store w) !! n = Some node →
  isValidContainer (store w) (ArgNode n) = true →
  renderTarget n node = Some t →
  domNodes (store w) !! t = Some T →
  _reactRootContainer T = None →
  let newRoot := fresh (dom (roots (store w))) in
  let f := fresh (dom (fibers (store w))) in
  let unbatched := Scheduler.set_isBatchingUpdates false (sched w) in
  let level := Scheduler.getPriorityContext unbatched in
  let u := mkUpdate children (carried callback) level in
  let scheduled :=
    Scheduler.scheduleUpdate f level (Scheduler.addTopLevelUpdate f u unbatched) in
  exec (renderSubtreeIntoContainer parentComponent children (ArgNode n) callback) w
  = mkWorld (applyCommits scheduled.1 (firstRenderStore parentComponent t T (store w)))
            (Scheduler.set_isBatchingUpdates (Scheduler.isBatchingUpdates (sched w))
                                             scheduled.2)
            (calls w
             ++ (Call_removeChild t
                   <$> removalOrder (length (childNodes T)) (childNodes T))
             ++ [Call_createFiberRoot t newRoot;
                 Call_unbatchedUpdates_begin;
                 Call_getPriorityContext level;
                 Call_addTopLevelUpdate f children (carried callback) level;
                 Call_scheduleUpdate f level;
                 Call_unbatchedUpdates_end]).
Proof.
  intros Hn Hvalid Htarget Ht Hroot newRoot f unbatched level u scheduled.
  unfold exec, renderSubtreeIntoContainer.
  step (validateContainer_valid _ _ Hvalid).
  step (getNode_Some _ _ _ Hn).
  step (renderTarget_run _ _ _ _ Htarget).
  step (getNode_Some _ _ _ Ht).
  rewrite Hroot.
  step (clearContent_run _ _ _ _ Ht (le_n _)).
  erewrite bind_ok by reflexivity.
  erewrite bind_ok by reflexivity.
  cbn [store sched calls roots fibers set_roots set_fibers set_domNodes domNodes].
  fold newRoot. fold f.
  match goal with
  | |- (bind ?m _ ?w0).2 = _ =>
      change ((bind m (λ _, getPublicRootInstance newRoot) w0).2)
        with (exec (m;; getPublicRootInstance newRoot) w0)
  end.
  rewrite exec_then_getPublicRootInstance. unfold exec.
  rewrite unbatchedUpdates_run. cbv zeta.
  erewrite updateContainer_run
    by (cbn [store roots set_domNodes set_roots]; apply lookup_insert_eq).
  rewrite callbackOrNull_carried.
  cbn [fst snd store sched calls current]. fold unbatched. fold level. fold u.
  fold scheduled.
  f_equal.
  - f_equal. unfold firstRenderStore, set_roots, set_domNodes, set_fibers.
    cbn [domNodes roots fibers eventsEnabled selectionInformation warned
         emitterEnabled selection].
    fold newRoot. fold f.
    rewrite alter_insert_eq, insert_insert_eq. reflexivity.
  - rewrite <- !app_assoc. reflexivity.
Qed.

Lemma isValidContainer_same_type st st' n N N' :
  domNodes st !! n = Some N →
  domNodes st' !! n = Some N' →
  nodeType N' = nodeType N →
  isValidContainer st' (ArgNode n) = isValidContainer st (ArgNode n).
Proof. intros H H' Ht. unfold isValidContainer. by rewrite H, H', Ht. Qed.

(** The world a render into a container that carries a root leaves: that of
    [updateContainer] on the root. *)
Lemma renderSubtreeIntoContainer_later_run
    parentComponent children n callback w node t T root :
  domNodes (store w) !! n = Some node →
  isValidContainer (store w) (ArgNode n) = true →
  renderTarget n node = Some t →
  domNodes (store w) !! t = Some T →
  _reactRootContainer T = Some root →
  exec (renderSubtreeIntoContainer parentComponent children (ArgNode n) callback) w
  = exec (updateContainer children root parentComponent callback) w.
Proof.
  intros Hn Hvalid Htarget Ht Hroot.
  unfold exec, renderSubtreeIntoContainer.
  step (validateContainer_valid _ _ Hvalid).
  step (getNode_Some _ _ _ Hn).
  step (renderTarget_run _ _ _ _ Htarget).
  step (getNode_Some _ _ _ Ht).
  rewrite Hroot. apply exec_then_getPublicRootInstance.
Qed.

(** C8: on the first render into a container (its target node carries no
    [_reactRootContainer]) every child the target had is removed, then the
    root is created and written to the target's [_reactRootContainer], then
    the initial update is enqueued and scheduled between the entry to and
    the exit from [unbatchedUpdates].  A render into a container whose target
    carries a root goes to that root's top fiber; it removes no child, creates
    no root and leaves the DOM as it is.  So a second render into the same
    container reuses the root of the first, whenever the work done during
    the first render kept the container's type, document element and root
    handle and kept the root. *)
Theorem renderSubtreeIntoContainer_first_and_later_renders
    parentComponent children n callback w node t T :
  domNodes (store w) !! n = Some node →
  isValidContainer (store w) (ArgNode n) = true →
  renderTarget n node = Some t →
  domNodes (store w) !! t = Some T →
  let w' := exec (renderSubtreeIntoContainer parentComponent children (ArgNode n) callback) w in
  (_reactRootContainer T = None →
     let newRoot := fresh (dom (roots (store w))) in
     let f := fresh (dom (fibers (store w))) in
     let removed := removalOrder (length (childNodes T)) (childNodes T) in
     let unbatched := Scheduler.set_isBatchingUpdates false (sched w) in
     let level := Scheduler.getPriorityContext unbatched in
     let runs :=
       (Scheduler.scheduleUpdate f level
          (Scheduler.addTopLevelUpdate f (mkUpdate children (carried callback) level)
                                       unbatched)).1 in
     let handed := firstRenderStore parentComponent t T (store w) in
     (∀ c, c ∈ childNodes T → c ∈ removed)
     ∧ calls w' = calls w ++ (Call_removeChild t <$> removed)
                  ++ [Call_createFiberRoot t newRoot;
                      Call_unbatchedUpdates_begin;
                      Call_getPriorityContext level;
                      Call_addTopLevelUpdate f children (carried callback) level;
                      Call_scheduleUpdate f level;
                      Call_unbatchedUpdates_end]
     ∧ roots (store w) !! newRoot = None
     ∧ store w' = applyCommits runs handed
     ∧ domNodes handed !! t
       = Some (mkDomNode (nodeType T) [] (documentElement T) (nodeValue T) (Some newRoot))
     ∧ roots handed !! newRoot
       = Some (mkFiberRoot t f (Some (getContextForSubtree parentComponent)) None)
     ∧ ∀ parentComponent2 children2 callback2 R1,
         containerKept n handed (store w') →
         containerKept t handed (store w') →
         roots (store w') !! newRoot = Some R1 →
         let level2 := Scheduler.getPriorityContext (sched w') in
         calls (exec (renderSubtreeIntoContainer parentComponent2 children2 (ArgNode n)
                        callback2) w')
         = calls w' ++ [Call_getPriorityContext level2;
                        Call_addTopLevelUpdate (current R1) children2
                                               (carried callback2) level2;
                        Call_scheduleUpdate (current R1) level2])
  ∧ (∀ root R,
       _reactRootContainer T = Some root →
       roots (store w) !! root = Some R →
       let level := Scheduler.getPriorityContext (sched w) in
       let runs :=
         (Scheduler.scheduleUpdate (current R) level
            (Scheduler.addTopLevelUpdate (current R)
               (mkUpdate children (carried callback) level) (sched w))).1 in
       calls w' = calls w
                  ++ [Call_getPriorityContext level;
                      Call_addTopLevelUpdate (current R) children (carried callback) level;
                      Call_scheduleUpdate (current R) level]
       ∧ ∃ handed,
           store w' = applyCommits runs handed
           ∧ domNodes handed = domNodes (store w)
           ∧ dom (roots handed) = dom (roots (store w))).
Proof.
  intros Hn Hvalid Htarget Ht w'.
  assert (Hlater : ∀ p c cb w0 node0 T0 root R,
            domNodes (store w0) !! n = Some node0 →
            isValidContainer (store w0) (ArgNode n) = true →
            renderTarget n node0 = Some t →
            domNodes (store w0) !! t = Some T0 →
            _reactRootContainer T0 = Some root →
            roots (store w0) !! root = Some R →
            calls (exec (renderSubtreeIntoContainer p c (ArgNode n) cb) w0)
            = calls w0
              ++ [Call_getPriorityContext (Scheduler.getPriorityContext (sched w0));
                  Call_addTopLevelUpdate (current R) c (carried cb)
                                         (Scheduler.getPriorityContext (sched w0));
                  Call_scheduleUpdate (current R) (Scheduler.getPriorityContext (sched w0))]).
  { intros p c cb w0 node0 T0 root R Hn0 Hv0 Htg0 Ht0 Hroot0 HR0.
    rewrite (renderSubtreeIntoContainer_later_run _ _ _ _ _ _ _ _ _ Hn0 Hv0 Htg0 Ht0 Hroot0).
    unfold exec. rewrite (updateContainer_run _ _ _ _ _ _ HR0).
    by rewrite callbackOrNull_carried. }
  split.
  - intros Hroot newRoot f removed unbatched level runs handed.
    pose proof (renderSubtreeIntoContainer_first_run parentComponent children n callback
                  w node t T Hn Hvalid Htarget Ht Hroot) as Hrun.
    cbv zeta in Hrun. fold w' newRoot f removed unbatched level runs handed in Hrun.
    assert (HT' : domNodes handed !! t
                  = Some (mkDomNode (nodeType T) [] (documentElement T) (nodeValue T)
                                    (Some newRoot)))
      by apply lookup_insert_eq.
    split; [intros c Hc; by apply removalOrder_covers|].
    split; [by rewrite Hrun|].
    split; [apply not_elem_of_dom, is_fresh|].
    split; [by rewrite Hrun|].
    split; [exact HT'|].
    split; [apply lookup_insert_eq|].
    intros p2 c2 cb2 R1 Hkn Hkt HR1 level2.
    destruct (Hkt _ HT') as (T1 & HT1 & _ & _ & HrT).
    assert (Hn' : ∃ node', domNodes handed !! n = Some node'
                           ∧ nodeType node' = nodeType node
                           ∧ documentElement node' = documentElement node).
    { destruct (decide (n = t)) as [->|Hne].
      - eexists. split; [exact HT'|]. rewrite Ht in Hn. by injection Hn as <-.
      - exists node. split; [|done].
        unfold handed, firstRenderStore. cbn [domNodes]. by rewrite lookup_insert_ne. }
    destruct Hn' as (node' & Hnode' & Htype' & Hdoc').
    destruct (Hkn _ Hnode') as (node1 & Hnode1 & Htype1 & Hdoc1 & _).
    apply (Hlater _ _ _ _ node1 T1 newRoot R1); try done.
    + rewrite <- Hvalid. eapply isValidContainer_same_type; [exact Hn | exact Hnode1 |].
      congruence.
    + unfold renderTarget in *. rewrite Htype1, Hdoc1, Htype', Hdoc'. exact Htarget.
  - intros root R Hroot HR level runs. split.
    + exact (Hlater _ _ _ _ _ _ _ _ Hn Hvalid Htarget Ht Hroot HR).
    + unfold w'.
      rewrite (renderSubtreeIntoContainer_later_run _ _ _ _ _ _ _ _ _
                 Hn Hvalid Htarget Ht Hroot).
      unfold exec. rewrite (updateContainer_run _ _ _ _ _ _ HR).
      rewrite callbackOrNull_carried. cbn [snd store].
      eexists. split; [reflexivity|]. cbn [domNodes roots set_roots].
      split; [done|]. apply dom_insert_lookup_L. eauto.
Qed.

(** ** Reading the tree *)

Lemma getFiber_Some f F w :
  fibers (store w) !! f = Some F → getFiber f w = (Ok F, w).
Proof. intros H. unfold getFiber, bind, getStore. simpl. by rewrite H. Qed.

(** C5 (amended): [getPublicRootInstance] reads only; it returns [null]
    when the top node of the current tree has no child, and otherwise the
    [stateNode] of that top-level child, whatever it holds. *)
Theorem getPublicRootInstance_child_stateNode w r R F :
  roots (store w) !! r = Some R →
  fibers (store w) !! current R = Some F →
  exec (getPublicRootInstance r) w = w
  ∧ (child F = None → result (getPublicRootInstance r) w = Ok StateNull)
  ∧ (∀ c C, child F = Some c → fibers (store w) !! c = Some C →
       result (getPublicRootInstance r) w = Ok (stateNode C)).
Proof.
  intros HR HF. unfold exec, result, getPublicRootInstance.
  step (getRoot_Some _ _ _ HR).
  step (getFiber_Some _ _ _ HF).
  destruct (child F) as [c|] eqn:Hchild.
  - destruct (fibers (store w) !! c) as [C|] eqn:HC.
    + step (getFiber_Some _ _ _ HC). cbn.
      repeat split; [done|]. intros c' C' [= <-] HC'. congruence.
    + unfold bind, getFiber, getStore, bind, throw. cbn. rewrite HC. cbn.
      repeat split; [done|]. intros c' C' [= <-] HC'. congruence.
  - cbn. repeat split; done.
Qed.

(** ** The DOM host config *)

Lemma shouldAutoFocusHostComponent_true type props :
  shouldAutoFocusHostComponent type props = true ↔
  type ∈ ["button"; "input"; "select"; "textarea"] ∧ truthy (autoFocus props) = true.
Proof.
  unfold shouldAutoFocusHostComponent. rewrite !elem_of_cons, elem_of_nil.
  destruct (String.eqb_spec type "button") as [->|H1]; cbn [orb].
  { split; [intros ?; split; [by left | done] | by intros [_ ?]]. }
  destruct (String.eqb_spec type "input") as [->|H2]; cbn [orb].
  { split; [intros ?; split; [by right; left | done] | by intros [_ ?]]. }
  destruct (String.eqb_spec type "select") as [->|H3]; cbn [orb].
  { split; [intros ?; split; [by right; right; left | done] | by intros [_ ?]]. }
  destruct (String.eqb_spec type "textarea") as [->|H4]; cbn [orb].
  { split; [intros ?; split; [by right; right; right; left | done] | by intros [_ ?]]. }
  split; [done|]. intros [[?|[?|[?|[?|[]]]]] _]; done.
Qed.

(** C10: [finalizeInitialChildren] sets the initial properties and returns
    [true] if and only if the type is one of button, input, select and
    textarea and [props.autoFocus] is truthy.  [commitMount] calls [focus()]
    on the instance, whatever the type and the props, and does nothing
    else: it returns, the call is the only one it makes, and it writes
    nothing itself; the focus moves to the instance if the browser lets the
    instance take it, and stays where it was otherwise. *)
Theorem finalizeInitialChildren_true_iff_autoFocus
    domElement type props rootContainerInstance
    mountType mountProps internalInstanceHandle w :
  let w' := exec (commitMount domElement mountType mountProps internalInstanceHandle) w in
  finalizeInitialChildren domElement type props rootContainerInstance w
    = (Ok (shouldAutoFocusHostComponent type props),
       mkWorld (store w) (sched w)
               (calls w ++ [Call_setInitialProperties domElement type props
                                                      rootContainerInstance]))
  ∧ (result (finalizeInitialChildren domElement type props rootContainerInstance) w
       = Ok true
     ↔ type ∈ ["button"; "input"; "select"; "textarea"]
       ∧ truthy (autoFocus props) = true)
  ∧ result (commitMount domElement mountType mountProps internalInstanceHandle) w = Ok tt
  ∧ calls w' = calls w ++ [Call_focus domElement]
  ∧ sched w' = sched w
  ∧ store w' = set_selection (selection (store w')) (store w)
  ∧ selection (store w')
    = (if focusable (store w) domElement then Selection (Some domElement)
       else selection (store w)).
Proof.
  intros w'. split; [reflexivity|]. split.
  { unfold result. cbn. rewrite <- shouldAutoFocusHostComponent_true.
    split; [by intros [= ->] | by intros ->]. }
  unfold w', exec, result, commitMount, dom_focus, bind, log, getStore, modifyStore, ret.
  cbn [fst snd store sched calls].
  destruct (focusable (store w) domElement); cbn [fst snd store sched calls selection set_selection];
    repeat split.
  by destruct (store w).
Qed.

Lemma applyMutation_bracketState m w :
  bracketState (exec (applyMutation m) w) = bracketState w.
Proof.
  unfold exec. destruct m; cbn [applyMutation];
    unfold appendChild, insertBefore, removeChild, commitUpdate, commitTextUpdate,
      resetTextContent, dom_appendChild, dom_insertBefore, dom_removeChild,
      getNode, bind, log, getStore, modifyStore, ret, throw; cbn [fst snd store];
    repeat (match goal with
            | |- context [match ?d !! ?k with _ => _ end] => destruct (d !! k)
            | |- context [if bool_decide ?P then _ else _] => destruct (bool_decide P)
            end; cbn [fst snd store]);
    reflexivity.
Qed.

Lemma mutationPhase_bracketState ms : ∀ w,
  bracketState (exec (mutationPhase ms) w) = bracketState w.
Proof.
  induction ms as [|m ms IH]; intros w; [done|].
  cbn [mutationPhase]. unfold exec, bind.
  pose proof (applyMutation_bracketState m w) as Hm. unfold exec in Hm.
  destruct (applyMutation m w) as [[[]|e] w1]; cbn [snd] in *.
  - rewrite <- Hm. apply IH.
  - exact Hm.
Qed.

(** C9: for [prepareForCommit], a mutation phase, then [resetAfterCommit]:
    the event emitter is disabled by [prepareForCommit] and stays disabled
    after every step of the mutation phase; after [resetAfterCommit] its
    flag is what it was before [prepareForCommit], and the variables
    [eventsEnabled] and [selectionInformation] are [null]. *)
Theorem prepareForCommit_resetAfterCommit_restores w ms :
  let w1 := exec prepareForCommit w in
  let w3 := exec resetAfterCommit (exec (mutationPhase ms) w1) in
  emitterEnabled (store w1) = false
  ∧ (∀ k, emitterEnabled (store (exec (mutationPhase (take k ms)) w1)) = false)
  ∧ emitterEnabled (store w3) = emitterEnabled (store w)
  ∧ eventsEnabled (store w3) = None
  ∧ selectionInformation (store w3) = None.
Proof.
  intros w1 w3.
  assert (H1 : bracketState w1
               = (false, Some (emitterEnabled (store w)), Some (selection (store w))))
    by reflexivity.
  assert (Hk : ∀ l, bracketState (exec (mutationPhase l) w1)
                    = (false, Some (emitterEnabled (store w)), Some (selection (store w)))).
  { intros l. by rewrite mutationPhase_bracketState. }
  split; [exact (f_equal (λ x, x.1.1) H1)|].
  split; [intros k; exact (f_equal (λ x, x.1.1) (Hk (take k ms)))|].
  specialize (Hk ms). unfold w3.
  destruct (exec (mutationPhase ms) w1) as [st2 s2 c2].
  unfold bracketState in Hk. cbn [store] in Hk.
  injection Hk as He Hev Hsel.
  unfold exec, resetAfterCommit, restoreSelection, setEnabled,
    bind, getStore, log, modifyStore, ret.
  cbn [fst snd store]. rewrite Hsel. cbn. rewrite Hev. done.
Qed.

(** ** [findHostInstance] *)










(** ** Batches *)













(** * Further properties *)

(** ** [warnAboutUnstableUse] *)

Lemma warnAboutUnstableUse_run w :
  warnAboutUnstableUse w =
  (Ok tt, mkWorld (set_warned true (store w)) (sched w)
                  (calls w ++ [Call_warning (warned (store w) || useFiber)])).
Proof. reflexivity. Qed.

Lemma times_warned n : ∀ w,
  warned (store w) = true →
  times n warnAboutUnstableUse w =
  (Ok tt, mkWorld (store w) (sched w) (calls w ++ replicate n (Call_warning true))).
Proof.
  induction n as [|n IH]; intros w Hw.
  - cbn. unfold ret. rewrite app_nil_r. by destruct w.
  - cbn [times]. step (warnAboutUnstableUse_run w). cbv beta.
    rewrite IH by reflexivity. cbn [store sched calls].
    rewrite Hw. cbn [orb replicate].
    assert (Hst : set_warned true (store w) = store w).
    { destruct (store w) eqn:E. cbn in Hw. subst. reflexivity. }
    rewrite Hst, <- app_assoc. reflexivity.
Qed.

(** X1: the warning of [warnAboutUnstableUse] is shown at most once: the
    first of any number of runs passes [warned || useFiber] to [warning],
    every later run passes [true], and nothing but the [warned] flag is
    written. *)
Theorem warnAboutUnstableUse_warns_once n w :
  times (S n) warnAboutUnstableUse w =
  (Ok tt,
   mkWorld (set_warned true (store w)) (sched w)
           (calls w ++ Call_warning (warned (store w) || useFiber)
                       :: replicate n (Call_warning true))).
Proof.
  cbn [times]. step (warnAboutUnstableUse_run w). cbv beta.
  rewrite times_warned by reflexivity. cbn [store sched calls].
  by rewrite <- app_assoc.
Qed.

(** ** [render] and [unstable_renderSubtreeIntoContainer] *)

(** X2: [render(element, container, callback)] is
    [renderSubtreeIntoContainer(null, element, container, callback)]: its
    own validation of the container changes nothing, for valid and for
    invalid containers alike. *)
Theorem render_is_renderSubtreeIntoContainer element container callback w :
  render element container callback w
  = renderSubtreeIntoContainer None element container callback w.
Proof.
  unfold render. destruct (isValidContainer (store w) container) eqn:Hv.
  - by step (validateContainer_valid _ _ Hv).
  - rewrite (bind_throw _ _ _ _ _ (validateContainer_invalid _ _ Hv)).
    unfold renderSubtreeIntoContainer.
    by rewrite (bind_throw _ _ _ _ _ (validateContainer_invalid _ _ Hv)).
Qed.

(** X3: [unstable_renderSubtreeIntoContainer] checks the parent component
    before it looks at the container: without a parent, or with one that
    [ReactInstanceMap] does not hold, it throws the invariant on the parent
    and leaves the world as it was, whatever the container; with a parent
    the map holds it is [renderSubtreeIntoContainer]. *)
Theorem unstable_renderSubtreeIntoContainer_checks_parent
    parentComponent element containerNode callback w :
  ((parentComponent = None
    ∨ ∃ c, parentComponent = Some c ∧ instanceMapHas c = false) →
   unstable_renderSubtreeIntoContainer parentComponent element containerNode callback w
   = (Throw (InvariantViolation "parentComponent must be a valid React Component"), w))
  ∧ (∀ c, parentComponent = Some c → instanceMapHas c = true →
     unstable_renderSubtreeIntoContainer parentComponent element containerNode callback w
     = renderSubtreeIntoContainer parentComponent element containerNode callback w).
Proof.
  unfold unstable_renderSubtreeIntoContainer, invariant. split.
  - intros [->|(c & -> & ->)]; reflexivity.
  - intros c -> ->. reflexivity.
Qed.

(** ** [updateContainer] *)

(** X4: what [updateContainer] writes before the scheduler is notified is
    confined to the two context fields of the given root: the DOM, the
    fibers, the other roots, and the root's [containerInfo] and [current]
    are as they were. *)
Theorem updateContainer_writes_only_contexts element r parentComponent callback w R :
  roots (store w) !! r = Some R →
  ∃ st cs R',
    store (exec (updateContainer element r parentComponent callback) w) = applyCommits cs st
    ∧ domNodes st = domNodes (store w)
    ∧ fibers st = fibers (store w)
    ∧ (∀ r', r' ≠ r → roots st !! r' = roots (store w) !! r')
    ∧ roots st !! r = Some R'
    ∧ containerInfo R' = containerInfo R
    ∧ current R' = current R.
Proof.
  intros HR. unfold exec. rewrite (updateContainer_run _ _ _ _ _ _ HR). cbn [snd store].
  eexists _, _, (resolveContext parentComponent R).
  split; [reflexivity|]. cbn [domNodes fibers roots set_roots].
  split; [done|]. split; [done|]. split.
  - intros r' Hne. by rewrite lookup_insert_ne.
  - rewrite lookup_insert_eq. unfold resolveContext.
    by destruct (context R).
Qed.

(** ** The clearing loop *)

(** X5: the loop [while (container.lastChild)
    container.removeChild(container.lastChild)], given one turn per child,
    ends with the container empty; it removes the children last to first,
    calls nothing else, does not throw, and leaves every other node, and the
    other fields of the container, as they were. *)
Theorem clearContent_empties_last_to_first w t T :
  domNodes (store w) !! t = Some T →
  NoDup (childNodes T) →
  let w' := exec (clearContent (length (childNodes T)) t) w in
  result (clearContent (length (childNodes T)) t) w = Ok tt
  ∧ calls w' = calls w ++ (Call_removeChild t <$> reverse (childNodes T))
  ∧ domNodes (store w') !! t = Some (set_childNodes [] T)
  ∧ (∀ n, n ≠ t → domNodes (store w') !! n = domNodes (store w) !! n)
  ∧ roots (store w') = roots (store w)
  ∧ fibers (store w') = fibers (store w)
  ∧ sched w' = sched w.
Proof.
  intros Ht Hnd w'. unfold w', exec, result.
  rewrite (clearContent_run _ _ _ _ Ht (le_n _)), removalOrder_reverse by done.
  cbn [fst snd store sched calls domNodes roots fibers set_domNodes].
  repeat split.
  - apply lookup_insert_eq.
  - intros n Hne. by rewrite lookup_insert_ne.
Qed.

(** ** The commit bracket *)

Lemma applyMutation_calls m w :
  ∃ l, calls (exec (applyMutation m) w) = calls w ++ l
       ∧ ∀ b, Call_setEnabled b ∉ l.
Proof.
  unfold exec. destruct m; cbn [applyMutation];
    unfold appendChild, insertBefore, removeChild, commitUpdate, commitTextUpdate,
      resetTextContent, dom_appendChild, dom_insertBefore, dom_removeChild,
      getNode, bind, log, getStore, modifyStore, ret, throw; cbn [fst snd store calls];
    repeat (match goal with
            | |- context [match ?d !! ?k with _ => _ end] => destruct (d !! k)
            | |- context [if bool_decide ?P then _ else _] => destruct (bool_decide P)
            end; cbn [fst snd store calls]);
    rewrite <- ?app_assoc; eexists; (split; [reflexivity|]);
    intros b Hb; repeat (apply elem_of_cons in Hb as [Hb|Hb]; [discriminate Hb|]);
    by apply elem_of_nil in Hb.
Qed.

Lemma mutationPhase_calls ms : ∀ w,
  ∃ l, calls (exec (mutationPhase ms) w) = calls w ++ l
       ∧ ∀ b, Call_setEnabled b ∉ l.
Proof.
  induction ms as [|m ms IH]; intros w.
  - exists []. split; [by rewrite app_nil_r|]. intros b Hb. by apply elem_of_nil in Hb.
  - cbn [mutationPhase]. unfold exec, bind.
    destruct (applyMutation_calls m w) as (l1 & Hl1 & Hn1). unfold exec in Hl1.
    destruct (applyMutation m w) as [[[]|e] w1]; cbn [snd] in *.
    + destruct (IH w1) as (l2 & Hl2 & Hn2). unfold exec in Hl2.
      exists (l1 ++ l2). split.
      * by rewrite Hl2, Hl1, app_assoc.
      * intros b [Hb|Hb]%elem_of_app; [by apply (Hn1 b) | by apply (Hn2 b)].
    + by exists l1.
Qed.

(** X6: over [prepareForCommit], a mutation phase and [resetAfterCommit] the
    calls are, in order: [isEnabled], [getSelectionInformation],
    [setEnabled(false)]; the calls of the mutation methods, none of which is
    [setEnabled]; then [restoreSelection] with the very snapshot that
    [prepareForCommit] took, and only after it [setEnabled] with the value
    [isEnabled] had returned. *)
Theorem commit_bracket_calls w ms :
  let w1 := exec prepareForCommit w in
  let w3 := exec resetAfterCommit (exec (mutationPhase ms) w1) in
  ∃ mutations,
    calls w3 = calls w
               ++ [Call_isEnabled (emitterEnabled (store w));
                   Call_getSelectionInformation;
                   Call_setEnabled false]
               ++ mutations
               ++ [Call_restoreSelection (Some (selection (store w)));
                   Call_setEnabled (emitterEnabled (store w))]
    ∧ ∀ b, Call_setEnabled b ∉ mutations.
Proof.
  intros w1 w3.
  destruct (mutationPhase_calls ms w1) as (l & Hl & Hn).
  pose proof (mutationPhase_bracketState ms w1) as Hb.
  exists l. split; [|exact Hn]. unfold w3.
  destruct (exec (mutationPhase ms) w1) as [st2 s2 c2].
  unfold bracketState in Hb. cbn [store calls] in *.
  injection Hb as He Hev Hsel.
  unfold exec, resetAfterCommit, restoreSelection, setEnabled,
    bind, getStore, log, modifyStore, ret.
  cbn [fst snd store calls]. rewrite Hsel. cbn. rewrite Hev. cbn.
  rewrite Hl. cbn. rewrite <- !app_assoc. reflexivity.
Qed.

(** ** Host contexts *)

(** X7: [getRootHostContext] and [getChildHostContext] call
    [updatedAncestorInfo], which the module binds only under [__DEV__]:
    outside development both throw a [TypeError], for every argument, and
    write nothing. *)
Theorem host_contexts_throw_outside_development env n parentHostContext type w :
  DEV = false →
  getRootHostContext env n w = (Throw TypeError, w)
  ∧ getChildHostContext env parentHostContext type w = (Throw TypeError, w).
Proof.
  intros Hdev. unfold getRootHostContext, getChildHostContext,
    call_updatedAncestorInfo, updatedAncestorInfo_binding.
  rewrite Hdev. split; [|reflexivity].
  destruct (ownerDocument env n) as [d|]; [|reflexivity].
  destruct (domNodes (store w) !! d) as [doc|] eqn:Hdoc.
  - step (getNode_Some _ _ _ Hdoc).
    destruct (bool_decide (documentElement doc = Some n)); [reflexivity|].
    by destruct (tagName env n).
  - unfold bind, getNode, getStore, bind, throw. cbn. by rewrite Hdoc.
Qed.

(** X8: in development, [getRootHostContext] on the document element of its
    document gives the namespace [getChildNamespace(namespaceURI || null,
    tagName)] and the ancestor info of ["#document"]; on a node that is not
    that document element and has no [tagName] (a document fragment, which
    [isValidContainer] accepts) it throws a [TypeError]. *)
Theorem getRootHostContext_document_element_or_tagName env n d doc w :
  DEV = true →
  ownerDocument env n = Some d →
  domNodes (store w) !! d = Some doc →
  (documentElement doc = Some n →
   getRootHostContext env n w
   = (Ok (mkHostContext
            (getChildNamespace env (orNull (namespaceURI env n)) (tagName env n))
            (updatedAncestorInfo env JsNull "#document" JsNull)), w))
  ∧ (documentElement doc ≠ Some n → tagName env n = None →
     getRootHostContext env n w = (Throw TypeError, w)).
Proof.
  intros Hdev Hd Hdoc. unfold getRootHostContext, call_updatedAncestorInfo,
    updatedAncestorInfo_binding.
  rewrite Hdev, Hd. step (getNode_Some _ _ _ Hdoc). split.
  - intros He. by rewrite bool_decide_eq_true_2.
  - intros He Ht. rewrite bool_decide_eq_false_2 by done. by rewrite Ht.
Qed.

(** ** Renders and unmounts, one after the other *)

(** X9: on a first render, when the scheduler is notified, the node rendered
    into (the document element for a document, the container itself
    otherwise) has no children and carries a root that was not in use
    before and is bound to that node; no other DOM node and no other root
    has been written, so a document passed as container does not carry the
    root itself. *)
Theorem first_render_attaches_root_to_target
    parentComponent children n callback w node t T :
  domNodes (store w) !! n = Some node →
  isValidContainer (store w) (ArgNode n) = true →
  renderTarget n node = Some t →
  domNodes (store w) !! t = Some T →
  _reactRootContainer T = None →
  let newRoot := fresh (dom (roots (store w))) in
  let w' := exec (renderSubtreeIntoContainer parentComponent children (ArgNode n) callback) w in
  roots (store w) !! newRoot = None
  ∧ ∃ st cs,
      store w' = applyCommits cs st
      ∧ domNodes st !! t
        = Some (set_reactRootContainer (Some newRoot) (set_childNodes [] T))
      ∧ (∀ m, m ≠ t → domNodes st !! m = domNodes (store w) !! m)
      ∧ (∃ R, roots st !! newRoot = Some R ∧ containerInfo R = t)
      ∧ (∀ r, r ≠ newRoot → roots st !! r = roots (store w) !! r).
Proof.
  intros Hn Hvalid Htarget Ht Hroot newRoot w'. split.
  { apply not_elem_of_dom. apply is_fresh. }
  unfold w'. rewrite (renderSubtreeIntoContainer_first_run _ _ _ _ _ _ _ _
                        Hn Hvalid Htarget Ht Hroot).
  cbn [store]. eexists _, _. split; [reflexivity|].
  unfold firstRenderStore. cbn [domNodes roots]. fold newRoot.
  split; [apply lookup_insert_eq|].
  split; [intros m Hm; by rewrite lookup_insert_ne|].
  split.
  - eexists. split; [apply lookup_insert_eq | reflexivity].
  - intros r Hr. by rewrite lookup_insert_ne.
Qed.

Lemma unbatchedUpdates_exec {A} (fn : M A) w :
  exec (unbatchedUpdates fn) w =
  let inner := exec fn (mkWorld (store w)
                                (Scheduler.set_isBatchingUpdates false (sched w))
                                (calls w ++ [Call_unbatchedUpdates_begin])) in
  mkWorld (store inner)
          (Scheduler.set_isBatchingUpdates (Scheduler.isBatchingUpdates (sched w))
                                           (sched inner))
          (calls inner ++ [Call_unbatchedUpdates_end]).
Proof. unfold exec. by rewrite unbatchedUpdates_run. Qed.

Lemma exec_bind_ret {A B} (m : M A) (g : A → B) w :
  exec (bind m (λ a, ret (g a))) w = exec m w.
Proof. unfold exec, bind, ret. by destruct (m w) as [[a|e] w1]. Qed.

(** X11: [unmountComponentAtNode] on an element or fragment that carries a
    root: after the warning of [warnAboutUnstableUse] (and, in development,
    the one about another copy of React) it renders [null] into the
    container inside [unbatchedUpdates], on the root's top fiber, with the
    callback that will clear [_reactRootContainer]; it creates no root and
    removes no child, and when the scheduler is notified the DOM, root
    handle included, is as it was. *)
Theorem unmountComponentAtNode_with_root w n node r R :
  domNodes (store w) !! n = Some node →
  (nodeType node = 1 ∨ nodeType node = 11)%Z →
  _reactRootContainer node = Some r →
  roots (store w) !! r = Some R →
  let w' := exec (unmountComponentAtNode (ArgNode n)) w in
  let level :=
    Scheduler.getPriorityContext (Scheduler.set_isBatchingUpdates false (sched w)) in
  calls w' = calls w
             ++ [Call_warning (warned (store w) || useFiber)]
             ++ (if DEV
                 then [Call_warning (renderedByThisReact (set_warned true (store w))
                                                         (head (childNodes node)))]
                 else [])
             ++ [Call_unbatchedUpdates_begin;
                 Call_getPriorityContext level;
                 Call_addTopLevelUpdate (current R) NullChildren
                                        (Some (ClearRootContainer n)) level;
                 Call_scheduleUpdate (current R) level;
                 Call_unbatchedUpdates_end]
  ∧ Scheduler.isBatchingUpdates (sched w') = Scheduler.isBatchingUpdates (sched w)
  ∧ ∃ st cs, store w' = applyCommits cs st ∧ domNodes st = domNodes (store w).
Proof.
  intros Hn Htype Hroot HR w' level.
  assert (Hvalid : ∀ st, domNodes st = domNodes (store w) →
                         isValidContainer st (ArgNode n) = true).
  { intros st Hst. unfold isValidContainer. rewrite Hst, Hn.
    unfold ELEMENT_NODE_TYPE, DOC_NODE_TYPE, DOCUMENT_FRAGMENT_NODE_TYPE.
    destruct Htype as [-> | ->]; reflexivity. }
  assert (Htarget : renderTarget n node = Some n).
  { unfold renderTarget, DOCUMENT_NODE. by destruct Htype as [-> | ->]. }
  assert (Hdev : ∃ l, ∀ w0, domNodes (store w0) = domNodes (store w) →
            ((if DEV then
               rootEl ← getReactRootElementInContainer (ArgNode n);
               st' ← getStore;
               warning (negb (match rootEl with
                              | Some el => negb (bool_decide (is_Some (getInstanceFromNode st' el)))
                              | None => false
                              end))
             else ret tt) w0
             = (Ok tt, mkWorld (store w0) (sched w0) (calls w0 ++ l w0)))
            ∧ l w0 = if DEV then [Call_warning (renderedByThisReact (store w0)
                                                  (head (childNodes node)))]
                     else []).
  { exists (λ w0, if DEV then [Call_warning (renderedByThisReact (store w0)
                                              (head (childNodes node)))] else []).
    intros w0 Hdom. split; [|reflexivity]. destruct DEV.
    - unfold getReactRootElementInContainer.
      assert (Hn0 : domNodes (store w0) !! n = Some node) by (by rewrite Hdom).
      rewrite exec_bind, exec_bind, (getNode_Some _ _ _ Hn0).
      unfold DOC_NODE_TYPE. destruct Htype as [Ht | Ht]; rewrite Ht; reflexivity.
    - unfold ret. rewrite app_nil_r. by destruct w0. }
  destruct Hdev as [l Hdev].
  unfold w'. unfold unmountComponentAtNode.
  unfold exec. erewrite bind_ok by reflexivity.
  rewrite (Hvalid _ eq_refl).
  erewrite bind_ok by reflexivity.
  step (warnAboutUnstableUse_run w).
  set (wa := mkWorld (set_warned true (store w)) (sched w)
                     (calls w ++ [Call_warning (warned (store w) || useFiber)])).
  assert (Hna : domNodes (store wa) !! n = Some node) by exact Hn.
  step (getNode_Some _ _ _ Hna). rewrite Hroot.
  destruct (Hdev wa eq_refl) as [Hrun Hl].
  step Hrun.
  set (wb := mkWorld (store wa) (sched wa) (calls wa ++ l wa)).
  change ((bind ?m (λ instance, ret (Some instance)) wb).2)
    with (exec (bind m (λ instance, ret (Some instance))) wb).
  rewrite exec_bind_ret, unbatchedUpdates_exec. cbv zeta.
  set (wc := mkWorld (store wb) (Scheduler.set_isBatchingUpdates false (sched wb))
                     (calls wb ++ [Call_unbatchedUpdates_begin])).
  assert (Hnc : domNodes (store wc) !! n = Some node) by exact Hn.
  rewrite (renderSubtreeIntoContainer_later_run _ _ _ _ _ _ _ _ _
             Hnc (Hvalid _ eq_refl) Htarget Hnc Hroot).
  assert (HRc : roots (store wc) !! r = Some R) by exact HR.
  unfold exec. rewrite (updateContainer_run _ _ _ _ _ _ HRc).
  cbn [fst snd store sched calls wc wb wa callbackOrNull].
  rewrite Hl. fold level. split; [|split].
  - rewrite <- !app_assoc. reflexivity.
  - reflexivity.
  - eexists _, _. split; [reflexivity|]. reflexivity.
Qed.

Lemma unmountComponentAtNode_no_root_run w n node :
  domNodes (store w) !! n = Some node →
  isValidContainer (store w) (ArgNode n) = true →
  _reactRootContainer node = None →
  unmountComponentAtNode (ArgNode n) w =
  (Ok None, mkWorld (set_warned true (store w)) (sched w)
                    (calls w ++ [Call_warning (warned (store w) || useFiber)])).
Proof.
  intros Hn Hvalid Hroot. unfold unmountComponentAtNode.
  erewrite bind_ok by reflexivity. rewrite Hvalid.
  erewrite bind_ok by reflexivity.
  erewrite bind_ok by reflexivity.
  erewrite bind_ok by (apply getNode_Some; exact Hn).
  rewrite Hroot. reflexivity.
Qed.

(** X12: after a first render into a document, [unmountComponentAtNode] on
    that document unmounts nothing, provided the work done during the render
    kept the document and its element (their type, document element and
    root handle): the root handle was written on the document element, the
    document carries none, so the call returns without a value, enqueues no
    update, and the document element keeps its root. *)
Theorem unmountComponentAtNode_document_after_render
    parentComponent children callback n w node t T :
  domNodes (store w) !! n = Some node →
  nodeType node = 9%Z →
  documentElement node = Some t →
  t ≠ n →
  _reactRootContainer node = None →
  domNodes (store w) !! t = Some T →
  _reactRootContainer T = None →
  let newRoot := fresh (dom (roots (store w))) in
  let handed := firstRenderStore parentComponent t T (store w) in
  let w1 := exec (renderSubtreeIntoContainer parentComponent children (ArgNode n) callback) w in
  let w2 := exec (unmountComponentAtNode (ArgNode n)) w1 in
  containerKept n handed (store w1) →
  containerKept t handed (store w1) →
  result (unmountComponentAtNode (ArgNode n)) w1 = Ok None
  ∧ sched w2 = sched w1
  ∧ calls w2 = calls w1 ++ [Call_warning (warned (store w1) || useFiber)]
  ∧ ∃ T2, domNodes (store w2) !! t = Some T2
          ∧ _reactRootContainer T2 = Some newRoot.
Proof.
  intros Hn Htype Hdoc Hne Hnoroot Ht Hroot newRoot handed w1 w2 Hkn Hkt.
  assert (HT' : domNodes handed !! t
                = Some (set_reactRootContainer (Some newRoot) (set_childNodes [] T)))
    by apply lookup_insert_eq.
  assert (Hn' : domNodes handed !! n = Some node).
  { unfold handed, firstRenderStore. cbn [domNodes]. by rewrite lookup_insert_ne. }
  destruct (Hkt _ HT') as (T1 & HT1 & _ & _ & HrT).
  destruct (Hkn _ Hn') as (N1 & HN1 & HtN & _ & HrN).
  assert (Hvalid1 : isValidContainer (store w1) (ArgNode n) = true).
  { unfold isValidContainer. rewrite HN1, HtN, Htype. reflexivity. }
  assert (Hnone : _reactRootContainer N1 = None) by congruence.
  unfold w2, exec, result.
  rewrite (unmountComponentAtNode_no_root_run _ _ _ HN1 Hvalid1 Hnone).
  cbn [fst snd store sched calls domNodes set_warned].
  repeat split. exists T1. split; [exact HT1 | exact HrT].
Qed.

(** X13: when [updateContainer] returns, the value a render into a
    container that carries a root returns is what [getPublicRootInstance]
    gives for that root once the update has been scheduled, that is, in the
    world the call leaves; when the work done during [updateContainer]
    throws, the render throws the same exception and reads nothing. *)
Theorem renderSubtreeIntoContainer_returns_public_root_instance
    parentComponent children n callback w node t T root :
  domNodes (store w) !! n = Some node →
  isValidContainer (store w) (ArgNode n) = true →
  renderTarget n node = Some t →
  domNodes (store w) !! t = Some T →
  _reactRootContainer T = Some root →
  let w' := exec (renderSubtreeIntoContainer parentComponent children (ArgNode n) callback) w in
  (result (updateContainer children root parentComponent callback) w = Ok tt →
   result (renderSubtreeIntoContainer parentComponent children (ArgNode n) callback) w
   = result (getPublicRootInstance root) w')
  ∧ (∀ e, result (updateContainer children root parentComponent callback) w = Throw e →
     result (renderSubtreeIntoContainer parentComponent children (ArgNode n) callback) w
     = Throw e).
Proof.
  intros Hn Hvalid Htarget Ht Hroot w'. unfold w', exec, result.
  unfold renderSubtreeIntoContainer.
  step (validateContainer_valid _ _ Hvalid).
  step (getNode_Some _ _ _ Hn).
  step (renderTarget_run _ _ _ _ Htarget).
  step (getNode_Some _ _ _ Ht).
  rewrite Hroot. unfold bind.
  destruct (updateContainer children root parentComponent callback w) as [[[]|e] w1];
    cbn [fst snd]; split; try done.
  - intros _. by rewrite getPublicRootInstance_world.
  - by intros e' [= ->].
Qed.

(** X14: a render into a document that has no document element throws a
    [TypeError] (the read of [_reactRootContainer] through [null]) and
    leaves the world as it was: nothing is removed, created or scheduled. *)
Theorem renderSubtreeIntoContainer_document_without_element
    parentComponent children n callback w node :
  domNodes (store w) !! n = Some node →
  nodeType node = 9%Z →
  documentElement node = None →
  renderSubtreeIntoContainer parentComponent children (ArgNode n) callback w
  = (Throw TypeError, w).
Proof.
  intros Hn Htype Hdoc.
  assert (Hvalid : isValidContainer (store w) (ArgNode n) = true).
  { unfold isValidContainer. rewrite Hn, Htype. reflexivity. }
  unfold renderSubtreeIntoContainer.
  step (validateContainer_valid _ _ Hvalid).
  step (getNode_Some _ _ _ Hn).
  rewrite Htype, Hdoc. reflexivity.
Qed.

End Renderer.

(** * Instances on the example stores *)



(** A call with a completion callback, outside any batch; and the same call
    when the run it triggers throws. *)
Lemma updateContainer_enqueues_then_schedules_witness :
  roots (store mountedWorld) !! 1%positive = Some mountedRoot
  ∧ calls (exec (updateContainer exampleContextFor exampleCommitWork
                   (ElementNode "div") 1 None (CallbackFunction (UserCallback 3)))
                mountedWorld)
    = [Call_getPriorityContext SynchronousPriority;
       Call_addTopLevelUpdate 1 (ElementNode "div") (Some (UserCallback 3))
                              SynchronousPriority;
       Call_scheduleUpdate 1 SynchronousPriority]
  ∧ result (updateContainer exampleContextFor exampleCommitWork
              (ElementNode "div") 1 None (CallbackFunction (UserCallback 3)))
           mountedWorld
    = Ok tt
  ∧ result (updateContainer exampleContextFor failingCommitWork
              (ElementNode "div") 1 None CallbackNull)
           mountedWorld
    = Throw TypeError.
Proof.
  split; [reflexivity|].
  destruct (updateContainer_enqueues_then_schedules
              exampleContextFor exampleCommitWork
              (ElementNode "div") 1 None (CallbackFunction (UserCallback 3))
              mountedWorld mountedRoot ltac:(reflexivity))
    as (Hcalls & _ & _ & Hresult & _).
  destruct (updateContainer_enqueues_then_schedules
              exampleContextFor failingCommitWork
              (ElementNode "div") 1 None CallbackNull
              mountedWorld mountedRoot ltac:(reflexivity))
    as (_ & _ & _ & Hthrows & _).
  split; [exact Hcalls|]. split; [exact Hresult | exact Hthrows].
Defined.



(** A text node is not a container, and neither is [null]. *)
Lemma invalid_container_throws_before_any_root_witness :
  (∀ t, containerNodeType (store pageWorld) (ArgNode 5) = Some t
        → (t ≠ 1 ∧ t ≠ 9 ∧ t ≠ 11)%Z)
  ∧ render exampleContextFor exampleCommitWork (ElementNode "div") (ArgNode 5)
           CallbackUndefined pageWorld
    = (Throw (JsError "Target container is not a DOM element."), pageWorld)
  ∧ unmountComponentAtNode exampleContextFor exampleCommitWork false true (λ _ _, None)
                           ArgNull pageWorld
    = (Throw (InvariantViolation
                "unmountComponentAtNode(...): Target container is not a DOM element."),
       pageWorld).
Proof.
  assert (H : ∀ t, containerNodeType (store pageWorld) (ArgNode 5) = Some t
                   → (t ≠ 1 ∧ t ≠ 9 ∧ t ≠ 11)%Z).
  { intros t Ht. vm_compute in Ht. injection Ht as <-. lia. }
  split; [exact H|]. split.
  - exact (proj1 (invalid_container_throws_before_any_root
                    exampleContextFor exampleCommitWork false true (λ _, true) (λ _ _, None)
                    pageWorld (ArgNode 5) (ElementNode "div") None CallbackUndefined H)).
  - refine (proj2 (proj2 (proj2 (invalid_container_throws_before_any_root
                    exampleContextFor exampleCommitWork false true (λ _, true) (λ _ _, None)
                    pageWorld ArgNull (ElementNode "div") None CallbackUndefined _)))).
    intros t Ht. discriminate Ht.
Defined.

(** The top-level child of [mountedWorld] is a class component; the root of
    [batchingWorld] has not been rendered into. *)
Lemma getPublicRootInstance_child_stateNode_witness :
  roots (store mountedWorld) !! 1%positive = Some mountedRoot
  ∧ result (getPublicRootInstance 1) mountedWorld = Ok (ComponentInstance 1)
  ∧ result (getPublicRootInstance 1) batchingWorld = Ok StateNull.
Proof.
  split; [reflexivity|]. split.
  - destruct (getPublicRootInstance_child_stateNode mountedWorld 1 mountedRoot
                mountedTopFiber ltac:(reflexivity) ltac:(reflexivity))
      as (_ & _ & Hchild).
    exact (Hchild 2%positive mountedComponentFiber
             ltac:(reflexivity) ltac:(reflexivity)).
  - destruct (getPublicRootInstance_child_stateNode batchingWorld 1 freshRoot
                (mkFiber (RootInstance 1) None None None)
                ltac:(reflexivity) ltac:(reflexivity))
      as (_ & Hempty & _).
    exact (Hempty eq_refl).
Defined.

(** C5 as stated fails on [functionalWorld]: its top-level child is a
    functional component, so the tree is not empty and
    [getPublicRootInstance] returns [null]. *)
Lemma getPublicRootInstance_null_with_child :
  ¬ (result (getPublicRootInstance 1) functionalWorld = Ok StateNull
     ↔ topLevelChild (store functionalWorld) 1 = None).
Proof.
  intros [Hnull _]. specialize (Hnull eq_refl).
  vm_compute in Hnull. discriminate Hnull.
Qed.



(** Node 4 of the page holds no root. *)
Lemma unmountComponentAtNode_without_root_witness :
  isValidContainer (store pageWorld) (ArgNode 4) = true
  ∧ result (unmountComponentAtNode exampleContextFor exampleCommitWork
              false true (λ _ _, None) (ArgNode 4)) pageWorld = Ok None.
Proof.
  split; [reflexivity|].
  exact (proj1 (unmountComponentAtNode_without_root
                  exampleContextFor exampleCommitWork false true (λ _ _, None)
                  pageWorld 4 (anElement [] None)
                  ltac:(reflexivity) ltac:(reflexivity) ltac:(reflexivity))).
Defined.

(** First render into the document of the page: the two children of its
    element go, last first, then the root is created and the update
    scheduled; a second render into the document goes to that root.  A
    render into node 4 of [mountedWorld] goes to root 1. *)
Lemma renderSubtreeIntoContainer_first_and_later_renders_witness :
  isValidContainer (store pageWorld) (ArgNode 10) = true
  ∧ renderTarget 10 (aDocument 1) = Some 1%positive
  ∧ (let w1 := exec (renderSubtreeIntoContainer exampleContextFor exampleCommitWork
                       None (ElementNode "div") (ArgNode 10) CallbackUndefined)
                    pageWorld in
     calls w1
     = [Call_removeChild 1 3;
        Call_removeChild 1 2;
        Call_createFiberRoot 1 1;
        Call_unbatchedUpdates_begin;
        Call_getPriorityContext SynchronousPriority;
        Call_addTopLevelUpdate 1 (ElementNode "div") None SynchronousPriority;
        Call_scheduleUpdate 1 SynchronousPriority;
        Call_unbatchedUpdates_end]
     ∧ calls (exec (renderSubtreeIntoContainer exampleContextFor exampleCommitWork
                      None (ElementNode "span") (ArgNode 10) CallbackNull) w1)
       = calls w1
         ++ [Call_getPriorityContext SynchronousPriority;
             Call_addTopLevelUpdate 1 (ElementNode "span") None SynchronousPriority;
             Call_scheduleUpdate 1 SynchronousPriority])
  ∧ calls (exec (renderSubtreeIntoContainer exampleContextFor exampleCommitWork
                   None (ElementNode "p") (ArgNode 4) CallbackNull) mountedWorld)
    = [Call_getPriorityContext SynchronousPriority;
       Call_addTopLevelUpdate 1 (ElementNode "p") None SynchronousPriority;
       Call_scheduleUpdate 1 SynchronousPriority].
Proof.
  split; [reflexivity|]. split; [reflexivity|]. split.
  - destruct (renderSubtreeIntoContainer_first_and_later_renders
                exampleContextFor exampleCommitWork
                None (ElementNode "div") 10 CallbackUndefined pageWorld
                (aDocument 1) 1 (anElement [2%positive; 3%positive] None)
                ltac:(reflexivity) ltac:(reflexivity) ltac:(reflexivity) ltac:(reflexivity))
      as [Hfirst _].
    destruct (Hfirst eq_refl) as (_ & Hcalls & _ & _ & Htarget & _ & Hsecond).
    split; [exact Hcalls|].
    apply (Hsecond None (ElementNode "span") CallbackNull
                   (mkFiberRoot 1 1 (Some (ContextObject 1)) None)).
    + intros N HN. vm_compute in HN. injection HN as <-.
      eexists. split; [by vm_compute|]. by repeat split.
    + intros N HN. rewrite Htarget in HN. injection HN as <-.
      eexists. split; [by vm_compute|]. by repeat split.
    + by vm_compute.
  - destruct (renderSubtreeIntoContainer_first_and_later_renders
                exampleContextFor exampleCommitWork
                None (ElementNode "p") 4 CallbackNull mountedWorld
                (anElement [6%positive] (Some 1%positive)) 4
                (anElement [6%positive] (Some 1%positive))
                ltac:(reflexivity) ltac:(reflexivity) ltac:(reflexivity) ltac:(reflexivity))
      as [_ Hlater].
    exact (proj1 (Hlater 1%positive mountedRoot eq_refl eq_refl)).
Defined.

(** * Instances of the further properties *)

Lemma unstable_renderSubtreeIntoContainer_checks_parent_witness :
  unstable_renderSubtreeIntoContainer exampleContextFor exampleCommitWork
    (λ c, bool_decide (c = 1%positive)) (Some 2%positive)
    (ElementNode "div") (ArgNode 4) CallbackUndefined pageWorld
  = (Throw (InvariantViolation "parentComponent must be a valid React Component"),
     pageWorld).
Proof.
  apply (proj1 (unstable_renderSubtreeIntoContainer_checks_parent
                  exampleContextFor exampleCommitWork (λ c, bool_decide (c = 1%positive))
                  (Some 2%positive) (ElementNode "div") (ArgNode 4)
                  CallbackUndefined pageWorld)).
  right. exists 2%positive. split; reflexivity.
Defined.

Lemma updateContainer_writes_only_contexts_witness :
  roots (store mountedWorld) !! 1%positive = Some mountedRoot
  ∧ ∃ st cs R',
      store (exec (updateContainer exampleContextFor exampleCommitWork
                     (ElementNode "div") 1 (Some 7%positive) CallbackUndefined)
                  mountedWorld)
      = applyCommits exampleCommitWork cs st
      ∧ domNodes st = mountedNodes
      ∧ roots st !! 1%positive = Some R'
      ∧ current R' = 1%positive.
Proof.
  split; [reflexivity|].
  destruct (updateContainer_writes_only_contexts exampleContextFor exampleCommitWork
              (ElementNode "div") 1 (Some 7%positive) CallbackUndefined
              mountedWorld mountedRoot ltac:(reflexivity))
    as (st & cs & R' & Hstore & Hdom & _ & _ & HR' & _ & Hcur).
  exists st, cs, R'. repeat split; assumption.
Defined.

Lemma clearContent_empties_last_to_first_witness :
  NoDup [2%positive; 3%positive]
  ∧ calls (exec (clearContent 2 1) pageWorld)
    = [Call_removeChild 1 3; Call_removeChild 1 2].
Proof.
  assert (Hnd : NoDup [2%positive; 3%positive]).
  { apply NoDup_cons. split; [|apply NoDup_singleton].
    intros H. apply list_elem_of_singleton in H. discriminate H. }
  split; [exact Hnd|].
  destruct (clearContent_empties_last_to_first pageWorld 1
              (anElement [2%positive; 3%positive] None)
              ltac:(reflexivity) Hnd)
    as (_ & Hcalls & _).
  exact Hcalls.
Defined.

Lemma host_contexts_throw_outside_development_witness :
  getChildHostContext false exampleEnvironment
    (mkHostContext "http://www.w3.org/1999/xhtml" JsNull) "span" pageWorld
  = (Throw TypeError, pageWorld).
Proof.
  exact (proj2 (host_contexts_throw_outside_development false exampleEnvironment 1
                  (mkHostContext "http://www.w3.org/1999/xhtml" JsNull) "span"
                  pageWorld ltac:(reflexivity))).
Defined.

(** Node 1 is the document element of the page; the fragment is not, and has
    no tag name. *)
Lemma getRootHostContext_document_element_or_tagName_witness :
  getRootHostContext true exampleEnvironment 1 fragmentWorld
  = (Ok (mkHostContext "http://www.w3.org/1999/xhtml" (JsString "#document")),
     fragmentWorld)
  ∧ getRootHostContext true exampleEnvironment 11 fragmentWorld
    = (Throw TypeError, fragmentWorld).
Proof.
  split.
  - exact (proj1 (getRootHostContext_document_element_or_tagName
                    true exampleEnvironment 1 10 (aDocument 1) fragmentWorld
                    ltac:(reflexivity) ltac:(reflexivity) ltac:(reflexivity))
                 ltac:(reflexivity)).
  - exact (proj2 (getRootHostContext_document_element_or_tagName
                    true exampleEnvironment 11 10 (aDocument 1) fragmentWorld
                    ltac:(reflexivity) ltac:(reflexivity) ltac:(reflexivity))
                 ltac:(discriminate) ltac:(reflexivity)).
Defined.

(** A first render into the document of the page puts root 1 on node 1, the
    document element, and leaves the document, node 10, as it was. *)
Lemma first_render_attaches_root_to_target_witness :
  isValidContainer (store pageWorld) (ArgNode 10) = true
  ∧ ∃ st cs,
      store (exec (renderSubtreeIntoContainer exampleContextFor exampleCommitWork
                     None (ElementNode "div") (ArgNode 10) CallbackUndefined) pageWorld)
      = applyCommits exampleCommitWork cs st
      ∧ domNodes st !! 1%positive = Some (anElement [] (Some 1%positive))
      ∧ domNodes st !! 10%positive = Some (aDocument 1).
Proof.
  split; [reflexivity|].
  destruct (first_render_attaches_root_to_target exampleContextFor exampleCommitWork
              None (ElementNode "div") 10 CallbackUndefined pageWorld
              (aDocument 1) 1 (anElement [2%positive; 3%positive] None)
              ltac:(reflexivity) ltac:(reflexivity) ltac:(reflexivity)
              ltac:(reflexivity) ltac:(reflexivity))
    as (_ & st & cs & Hstore & Ht & Hother & _).
  exists st, cs. split; [exact Hstore|]. split; [exact Ht|].
  rewrite (Hother 10%positive ltac:(discriminate)). reflexivity.
Defined.

Lemma unmountComponentAtNode_with_root_witness :
  roots (store mountedWorld) !! 1%positive = Some mountedRoot
  ∧ calls (exec (unmountComponentAtNode exampleContextFor exampleCommitWork
                   false true (λ _ _, None) (ArgNode 4)) mountedWorld)
    = [Call_warning true;
       Call_warning false;
       Call_unbatchedUpdates_begin;
       Call_getPriorityContext SynchronousPriority;
       Call_addTopLevelUpdate 1 NullChildren (Some (ClearRootContainer 4))
                              SynchronousPriority;
       Call_scheduleUpdate 1 SynchronousPriority;
       Call_unbatchedUpdates_end].
Proof.
  split; [reflexivity|].
  exact (proj1 (unmountComponentAtNode_with_root exampleContextFor exampleCommitWork
                  false true (λ _ _, None) mountedWorld 4
                  (anElement [6%positive] (Some 1%positive)) 1 mountedRoot
                  ltac:(reflexivity) ltac:(left; reflexivity)
                  ltac:(reflexivity) ltac:(reflexivity))).
Defined.

(** The page's document, node 10, after a render into it: the root is on
    node 1, and unmounting node 10 finds none. *)
Lemma unmountComponentAtNode_document_after_render_witness :
  (let w1 := exec (renderSubtreeIntoContainer exampleContextFor exampleCommitWork
                     None (ElementNode "div") (ArgNode 10) CallbackUndefined)
                  pageWorld in
   containerKept 10 (firstRenderStore exampleContextFor None 1
                       (anElement [2%positive; 3%positive] None) (store pageWorld))
                 (store w1)
   ∧ result (unmountComponentAtNode exampleContextFor exampleCommitWork
               false true (λ _ _, None) (ArgNode 10)) w1
     = Ok None
   ∧ ∃ T2, domNodes (store w1) !! 1%positive = Some T2
           ∧ _reactRootContainer T2 = Some 1%positive).
Proof.
  intros w1.
  assert (Hdocument : containerKept 10
            (firstRenderStore exampleContextFor None 1
               (anElement [2%positive; 3%positive] None) (store pageWorld))
            (store w1)).
  { intros N HN. vm_compute in HN. injection HN as <-.
    eexists. split; [by vm_compute|]. by repeat split. }
  assert (Helement : containerKept 1
            (firstRenderStore exampleContextFor None 1
               (anElement [2%positive; 3%positive] None) (store pageWorld))
            (store w1)).
  { intros N HN. vm_compute in HN. injection HN as <-.
    eexists. split; [by vm_compute|]. by repeat split. }
  split; [exact Hdocument|].
  destruct (unmountComponentAtNode_document_after_render
              exampleContextFor exampleCommitWork false true (λ _ _, None)
              None (ElementNode "div") CallbackUndefined 10 pageWorld
              (aDocument 1) 1 (anElement [2%positive; 3%positive] None)
              ltac:(reflexivity) ltac:(reflexivity) ltac:(reflexivity)
              ltac:(discriminate) ltac:(reflexivity) ltac:(reflexivity)
              ltac:(reflexivity) Hdocument Helement)
    as (Hresult & _ & _ & _).
  split; [exact Hresult|].
  eexists. split; [by vm_compute | reflexivity].
Defined.

(** A render into node 4 of [mountedWorld] returns the instance of the
    top-level component; with a run that throws, it throws. *)
Lemma renderSubtreeIntoContainer_returns_public_root_instance_witness :
  result (updateContainer exampleContextFor exampleCommitWork
            (ElementNode "p") 1 None CallbackNull) mountedWorld = Ok tt
  ∧ result (renderSubtreeIntoContainer exampleContextFor exampleCommitWork
              None (ElementNode "p") (ArgNode 4) CallbackNull) mountedWorld
    = Ok (ComponentInstance 1)
  ∧ result (renderSubtreeIntoContainer exampleContextFor failingCommitWork
              None (ElementNode "p") (ArgNode 4) CallbackNull) mountedWorld
    = Throw TypeError.
Proof.
  split; [reflexivity|]. split.
  - rewrite (proj1 (renderSubtreeIntoContainer_returns_public_root_instance
                      exampleContextFor exampleCommitWork None (ElementNode "p") 4
                      CallbackNull mountedWorld (anElement [6%positive] (Some 1%positive)) 4
                      (anElement [6%positive] (Some 1%positive)) 1
                      ltac:(reflexivity) ltac:(reflexivity) ltac:(reflexivity)
                      ltac:(reflexivity) ltac:(reflexivity))
                   ltac:(reflexivity)).
    reflexivity.
  - exact (proj2 (renderSubtreeIntoContainer_returns_public_root_instance
                    exampleContextFor failingCommitWork None (ElementNode "p") 4
                    CallbackNull mountedWorld (anElement [6%positive] (Some 1%positive)) 4
                    (anElement [6%positive] (Some 1%positive)) 1
                    ltac:(reflexivity) ltac:(reflexivity) ltac:(reflexivity)
                    ltac:(reflexivity) ltac:(reflexivity))
                 TypeError ltac:(reflexivity)).
Defined.

Lemma renderSubtreeIntoContainer_document_without_element_witness :
  isValidContainer (store fragmentWorld) (ArgNode 12) = true
  ∧ renderSubtreeIntoContainer exampleContextFor exampleCommitWork
      None (ElementNode "div") (ArgNode 12) CallbackUndefined fragmentWorld
    = (Throw TypeError, fragmentWorld).
Proof.
  split; [reflexivity|].
  exact (renderSubtreeIntoContainer_document_without_element
           exampleContextFor exampleCommitWork None (ElementNode "div") 12
           CallbackUndefined fragmentWorld (mkDomNode 9 [] None EmptyString None)
           ltac:(reflexivity) ltac:(reflexivity) ltac:(reflexivity)).
Defined.
